(** * Cerina Protocol Foundry: the review client and the workflow engine

    A shallow embedding of the React client (App.tsx, HumanReview.tsx,
    types/index.ts) and of the workflow engine the client talks to.

    JavaScript strings are sequences of UTF-16 code units; they are
    modelled as [list N] so that [String.prototype.trim], [!==] and the
    truthiness of a string mean here what they mean in the browser. *)

From Stdlib Require Import String Ascii List Bool Arith ZArith NArith Lia.
From Stdlib Require Import Sorting.Sorted Sorting.Permutation.
From Stdlib Require Import DecimalString.
Import ListNotations.

Set Warnings "-register-all".

(* ------------------------------------------------------------------ *)
(** ** JavaScript strings *)
(* ------------------------------------------------------------------ *)

Module JS.

(** A string value: its UTF-16 code units. *)
Definition jsstring := list N.

(** An ASCII literal of the source as a string value. *)
Definition js (s : string) : jsstring :=
  map N_of_ascii (list_ascii_of_string s).

(** [a === b] on strings: the same code units in the same order. *)
Fixpoint str_eqb (a b : jsstring) : bool :=
  match a, b with
  | [], [] => true
  | x :: a', y :: b' => N.eqb x y && str_eqb a' b'
  | _, _ => false
  end.

(** [a !== b]. *)
Definition str_neqb (a b : jsstring) : bool := negb (str_eqb a b).

(** ToBoolean of a string: only the empty string is falsy. *)
Definition truthy (s : jsstring) : bool :=
  match s with
  | [] => false
  | _ :: _ => true
  end.

(** [s || d] on strings. *)
Definition or_else (s d : jsstring) : jsstring :=
  if truthy s then s else d.

(** ECMAScript WhiteSpace and LineTerminator code points, the set
    [String.prototype.trim] strips: TAB, LF, VT, FF, CR, SP, NBSP,
    U+1680, U+2000..U+200A, U+2028, U+2029, U+202F, U+205F, U+3000 and
    U+FEFF. *)
Definition is_whitespace (c : N) : bool :=
  ((9 <=? c) && (c <=? 13) || (c =? 32) || (c =? 160) || (c =? 5760)
   || (8192 <=? c) && (c <=? 8202) || (c =? 8232) || (c =? 8233)
   || (c =? 8239) || (c =? 8287) || (c =? 12288) || (c =? 65279))%N.

Fixpoint trimStart (s : jsstring) : jsstring :=
  match s with
  | [] => []
  | c :: s' => if is_whitespace c then trimStart s' else s
  end.

Definition trimEnd (s : jsstring) : jsstring := rev (trimStart (rev s)).

(** [s.trim()]. *)
Definition trim (s : jsstring) : jsstring := trimEnd (trimStart s).

(** [s] is empty or consists of white space only. *)
Definition blank (s : jsstring) : bool := forallb is_whitespace s.

(** [String(n)] for a non-negative integer: its decimal digits. *)
Definition of_N (n : N) : jsstring :=
  js (NilEmpty.string_of_uint (N.to_uint n)).

End JS.

Import JS.

(* ------------------------------------------------------------------ *)
(** ** frontend/src/types/index.ts *)
(* ------------------------------------------------------------------ *)

Module Types.

(** The interface declarations themselves: each member with its name,
    whether it is marked optional ([?]) and its declared type. *)
Inductive TsType : Type :=
| TString
| TNumber
| TBoolean
| TAny
| TArray (elt : TsType)
| TRef (interface : string)
| TObject (members : list Member)
| TIndexSignature (value : TsType)
with Member : Type :=
| Mk_member (name : string) (optional : bool) (type : TsType).

Definition member_name (m : Member) : string :=
  let 'Mk_member n _ _ := m in n.

Definition member_optional (m : Member) : bool :=
  let 'Mk_member _ o _ := m in o.

Definition member_type (m : Member) : TsType :=
  let 'Mk_member _ _ t := m in t.

Definition required (n : string) (t : TsType) : Member := Mk_member n false t.
Definition optional (n : string) (t : TsType) : Member := Mk_member n true t.

Definition Review_interface : list Member :=
  [ required "agent" TString;
    required "notes" TString;
    required "score" TNumber;
    required "reasoning" TString ].

Definition GraphState_interface : list Member :=
  [ required "draft" TString;
    required "draft_history" (TArray TString);
    required "reviews" (TArray (TRef "Review"));
    required "scores"
      (TObject [ required "safety" TNumber; required "clinical" TNumber ]);
    required "iteration_count" TNumber;
    required "supervisor_feedback" TString;
    required "user_intent" TString;
    optional "error" TString;
    optional "metadata" (TIndexSignature TAny) ].

Definition TaskMetadata_interface : list Member :=
  [ required "intent" TString;
    required "created_at" TString;
    required "last_update" TString;
    required "iterations" TNumber;
    optional "duration_seconds" TNumber ].

Definition APIResponse_interface : list Member :=
  [ required "success" TBoolean;
    required "message" TString;
    optional "data"
      (TObject [ required "thread_id" TString;
                 required "status" TString;
                 required "state" (TRef "GraphState");
                 required "metadata" (TRef "TaskMetadata") ]);
    required "timestamp" TString ].

Definition Task_interface : list Member :=
  [ required "thread_id" TString;
    required "status" TString;
    required "intent" TString;
    required "created_at" TString;
    required "iterations" TNumber ].

(** Whether an interface declares a member of that name. *)
Definition declares (i : list Member) (n : string) : bool :=
  existsb (fun m => String.eqb (member_name m) n) i.

(** Values of the interfaces.  Scores and counters are the integers the
    backend serialises, so [number] members are carried as [Z]. *)
Inductive Json : Type :=
| JNull
| JBool (b : bool)
| JNumber (n : Z)
| JString (s : jsstring)
| JArray (elts : list Json)
| JObject (props : list (jsstring * Json)).

Record Review : Type := {
  agent : jsstring;
  notes : jsstring;
  score : Z;
  reasoning : jsstring
}.

Record Scores : Type := {
  safety : Z;
  clinical : Z
}.

Record GraphState : Type := {
  draft : jsstring;
  draft_history : list jsstring;
  reviews : list Review;
  scores : Scores;
  iteration_count : Z;
  supervisor_feedback : jsstring;
  user_intent : jsstring;
  error : option jsstring;
  metadata : option (list (jsstring * Json))
}.

Record Task : Type := {
  thread_id : jsstring;
  status : jsstring;
  intent : jsstring;
  created_at : jsstring;
  iterations : Z
}.

End Types.

(* ------------------------------------------------------------------ *)
(** ** README: the shared state and the router as documented *)
(* ------------------------------------------------------------------ *)

Module Readme.

(** "Shared State (GraphState) ... It contains": the members listed. *)
Definition GraphState_members : list string :=
  [ "user_intent"; "draft"; "reviews"; "scores"; "supervisor_feedback";
    "iteration_count"; "human_approved"; "error" ]%string.

Record GraphState : Type := {
  user_intent : jsstring;
  draft : jsstring;
  reviews : list Types.Review;
  scores : Types.Scores;
  supervisor_feedback : jsstring;
  iteration_count : Z;
  human_approved : bool;
  error : option jsstring
}.

(** Where the router sends the state. *)
Inductive Destination : Type := drafter | human_review_halt | END.

(** "An error is present in the state." *)
Definition error_present (s : GraphState) : bool :=
  match error s with
  | Some e => truthy e
  | None => false
  end.

(** "Router Logic (supervisor_router)": the conditions in the order
    they are listed. *)
Definition supervisor_router (s : GraphState) : Destination :=
  let safety_score := Types.safety (scores s) in
  let clinical_score := Types.clinical (scores s) in
  if error_present s then human_review_halt
  else if human_approved s then END
  else if ((9 <=? safety_score) && (8 <=? clinical_score))%Z
  then human_review_halt
  else if ((3 <=? iteration_count s) || (safety_score <? 6))%Z
  then human_review_halt
  else if ((safety_score <? 8) || (clinical_score <? 7))%Z then drafter
  else human_review_halt.

End Readme.

(* ------------------------------------------------------------------ *)
(** ** Requests and handlers *)
(* ------------------------------------------------------------------ *)

Module Http.

(** The error object an axios call rejects with: [err.code],
    [err.response] (its status and [data?.message]), whether
    [err.request] is set, and [err.message]. *)
Record ErrorResponse : Type := {
  response_status : N;
  response_message : option jsstring
}.

Record AxiosError : Type := {
  code : option jsstring;
  response : option ErrorResponse;
  request : bool;
  message : jsstring
}.

Inductive Reply (D : Type) : Type :=
| Resolved (data : D)
| Rejected (err : AxiosError).

Arguments Resolved {D} data.
Arguments Rejected {D} err.

(** An [async] handler that awaits at most one request: what it does
    before the [await], the request, and what it does with the reply. *)
Inductive Handler (Act Req D : Type) : Type :=
| Return (acts : list Act)
| Await (acts : list Act) (req : Req) (k : Reply D -> list Act).

Arguments Return {Act Req D} acts.
Arguments Await {Act Req D} acts req k.

(** The request a handler issues, if any. *)
Definition issued {Act Req D} (h : Handler Act Req D) : option Req :=
  match h with
  | Return _ => None
  | Await _ req _ => Some req
  end.

(** A handler run against a server: the server answers the request (and
    may change its own state doing so); with no request it is not
    reached at all. *)
Definition run {Act Req D S} (serve : Req -> S -> S * Reply D)
    (h : Handler Act Req D) (srv : S) : S * list Act :=
  match h with
  | Return acts => (srv, acts)
  | Await acts req k =>
      let '(srv', reply) := serve req srv in (srv', acts ++ k reply)
  end.

(** [err.response?.data?.message || err.message]. *)
Definition error_text (err : AxiosError) : jsstring :=
  match response err with
  | Some r =>
      match response_message r with
      | Some m => or_else m (message err)
      | None => message err
      end
  | None => message err
  end.

End Http.

Definition API_URL : jsstring := js "http://localhost:8000".

(* ------------------------------------------------------------------ *)
(** ** frontend/src/components/HumanReview.tsx *)
(* ------------------------------------------------------------------ *)

(** The body of [POST /resume/:thread_id].  [edited_draft] is [None]
    when the object has no such property. *)
Module Resume.

Record Payload : Type := {
  approved : bool;
  feedback : jsstring;
  edited_draft : option jsstring
}.

Record Request : Type := {
  url : jsstring;
  body : Payload
}.

End Resume.

Module HumanReview.

Record HumanReviewProps : Type := {
  threadId : jsstring;
  state : Types.GraphState
}.

Inductive Tab : Type := edit | preview.

(** The component's [useState] cells. *)
Record Cells : Type := {
  editedDraft : jsstring;
  feedback : jsstring;
  isProcessing : bool;
  activeTab : Tab
}.

(** The cells on first render. *)
Definition mount (props : HumanReviewProps) : Cells :=
  {| editedDraft := Types.draft (state props);
     feedback := [];
     isProcessing := false;
     activeTab := edit |}.

(** What a handler does besides its request ([console.error] apart). *)
Inductive Action : Type :=
| setIsProcessing (b : bool)
| onResuming
| onComplete
| alert (msg : jsstring).

Definition resume_url (props : HumanReviewProps) : jsstring :=
  API_URL ++ js "/resume/" ++ threadId props.

Definition handleApprove (props : HumanReviewProps) (c : Cells)
  : Http.Handler Action Resume.Request unit :=
  let payload :=
    {| Resume.approved := true;
       Resume.feedback :=
         or_else (feedback c) (js "Approved without additional feedback");
       Resume.edited_draft := None |} in
  let payload :=
    if str_neqb (editedDraft c) (Types.draft (state props))
    then {| Resume.approved := Resume.approved payload;
            Resume.feedback := Resume.feedback payload;
            Resume.edited_draft := Some (editedDraft c) |}
    else payload in
  Http.Await [setIsProcessing true; onResuming]
    {| Resume.url := resume_url props; Resume.body := payload |}
    (fun reply =>
       match reply with
       | Http.Resolved _ => []
       | Http.Rejected err =>
           [alert (js "Error approving draft: " ++ Http.error_text err);
            setIsProcessing false]
       end).

Definition handleReject (props : HumanReviewProps) (c : Cells)
  : Http.Handler Action Resume.Request unit :=
  Http.Await [setIsProcessing true]
    {| Resume.url := resume_url props;
       Resume.body :=
         {| Resume.approved := false;
            Resume.feedback :=
              or_else (feedback c) (js "Rejected without specific feedback");
            Resume.edited_draft := None |} |}
    (fun reply =>
       match reply with
       | Http.Resolved _ => [alert (js "Draft rejected. Process stopped."); onComplete]
       | Http.Rejected err =>
           [alert (js "Error rejecting draft: " ++ Http.error_text err);
            setIsProcessing false]
       end).

(** The resume request a click on either button sends. *)
Inductive Decision : Type := Approve | Reject.

Definition click (d : Decision) (props : HumanReviewProps) (c : Cells)
  : Http.Handler Action Resume.Request unit :=
  match d with
  | Approve => handleApprove props c
  | Reject => handleReject props c
  end.

End HumanReview.

(* ------------------------------------------------------------------ *)
(** ** frontend/src/App.tsx *)
(* ------------------------------------------------------------------ *)

Module App.

(** *** handleInvoke *)

Record InvokeRequest : Type := {
  invoke_url : jsstring;
  invoke_intent : jsstring;
  invoke_timeout : N
}.

(** What the handlers do besides their requests ([console.log] apart). *)
Inductive Action : Type :=
| alert (msg : jsstring)
| setStatus (s : jsstring)
| setError (e : option jsstring)
| setCurrentState (st : option Types.GraphState)
| setThreadId (tid : option jsstring)
| setTasks (l : list Types.Task)
| setActiveTab (tab : jsstring)
| startPolling (tid : jsstring).

(** The [catch] block of [handleInvoke]. *)
Definition invoke_failed (err : Http.AxiosError) : list Action :=
  let msg :=
    match Http.code err with
    | Some c =>
        if str_eqb c (js "ECONNREFUSED")
        then Some (js "Cannot connect to backend. Is it running on port 8000?")
        else if str_eqb c (js "ERR_NETWORK")
        then Some (js "Network error. Check CORS and backend URL.")
        else None
    | None => None
    end in
  let msg :=
    match msg with
    | Some m => m
    | None =>
        match Http.response err with
        | Some r =>
            js "Backend error " ++ of_N (Http.response_status r) ++ js ": "
            ++ match Http.response_message r with
               | Some m => or_else m (js "Unknown error")
               | None => js "Unknown error"
               end
        | None =>
            if Http.request err
            then js "No response from backend. Check if server is running."
            else or_else (Http.message err) (js "Failed to start generation")
        end
    end in
  [setError (Some msg); setStatus (js "error")].

(** [new Error(msg)] as the [catch] block sees it. *)
Definition thrown (msg : jsstring) : Http.AxiosError :=
  {| Http.code := None; Http.response := None; Http.request := false;
     Http.message := msg |}.

(** [handleInvoke], on the [intent] cell.  Of the reply it reads
    [data.data?.thread_id], [None] when there is none. *)
Definition handleInvoke (intent : jsstring)
  : Http.Handler Action InvokeRequest (option jsstring) :=
  if negb (truthy (trim intent))
  then Http.Return [alert (js "Please enter an intent")]
  else
    Http.Await
      [setStatus (js "processing"); setError None; setCurrentState None]
      {| invoke_url := API_URL ++ js "/invoke";
         invoke_intent := trim intent;
         invoke_timeout := 10000 |}
      (fun reply =>
         match reply with
         | Http.Resolved newThreadId =>
             match newThreadId with
             | Some tid =>
                 if truthy tid
                 then [setThreadId (Some tid); startPolling tid]
                 else invoke_failed (thrown (js "No thread_id in response"))
             | None => invoke_failed (thrown (js "No thread_id in response"))
             end
         | Http.Rejected err => invoke_failed err
         end).

(** *** fetchTasks *)

(** One value of the [tasks] object in the reply of [GET /tasks]. *)
Record RawTask : Type := {
  raw_status : jsstring;
  raw_intent : option jsstring;
  raw_created_at : jsstring;
  raw_iterations : option Z
}.

(** The reply's [data]: [success], and [data?.tasks] as
    [Object.entries] enumerates it. *)
Record TasksReply : Type := {
  success : bool;
  reply_tasks : option (list (jsstring * RawTask))
}.

Section Dates.

(** [new Date(s).getTime()]: the time value in milliseconds, [None]
    for an invalid date (NaN).  Parsing belongs to the runtime. *)
Variable getTime : jsstring -> option Z.

(** The comparator handed to [sort]:
    [new Date(b.created_at).getTime() - new Date(a.created_at).getTime()]. *)
Definition compareFn (a b : Types.Task) : option Z :=
  match getTime (Types.created_at b), getTime (Types.created_at a) with
  | Some tb, Some ta => Some (tb - ta)%Z
  | _, _ => None
  end.

(** SortCompare: a NaN from the comparator counts as [+0]. *)
Definition SortCompare (a b : Types.Task) : Z :=
  match compareFn a b with
  | Some v => v
  | None => 0%Z
  end.

(** [Array.prototype.sort] with that comparator.  The sort is stable;
    for a consistent comparator (every date valid, or none, or at most
    two tasks) every stable sort yields this list.  Where valid and
    invalid dates are mixed among three or more tasks the comparator is
    not consistent and the order is the runtime's own; nothing below
    relies on this list there. *)
Fixpoint insert (x : Types.Task) (l : list Types.Task) : list Types.Task :=
  match l with
  | [] => [x]
  | y :: l' => if (SortCompare x y <=? 0)%Z then x :: l else y :: insert x l'
  end.

Fixpoint sort (l : list Types.Task) : list Types.Task :=
  match l with
  | [] => []
  | x :: l' => insert x (sort l')
  end.

Definition to_task (entry : jsstring * RawTask) : Types.Task :=
  let '(thread_id, task) := entry in
  {| Types.thread_id := thread_id;
     Types.status := raw_status task;
     Types.intent :=
       match raw_intent task with
       | Some i => or_else i (js "Unknown")
       | None => js "Unknown"
       end;
     Types.created_at := raw_created_at task;
     Types.iterations :=
       match raw_iterations task with
       | Some n => n
       | None => 0%Z
       end |}.

(** The list [fetchTasks] hands to [setTasks], if it does. *)
Definition taskList (reply : Http.Reply TasksReply) : option (list Types.Task) :=
  match reply with
  | Http.Resolved d =>
      if success d
      then match reply_tasks d with
           | Some entries => Some (sort (map to_task entries))
           | None => None
           end
      else None
  | Http.Rejected _ => None
  end.


(** The time value of a task's [created_at]. *)
Definition created (t : Types.Task) : option Z := getTime (Types.created_at t).



End Dates.

(** *** loadTask *)

(** [loadTask].  Of the reply it reads the [state] of
    [data.data || {}], [None] when there is none. *)
Definition loadTask (task : Types.Task)
  : Http.Handler Action jsstring (option Types.GraphState) :=
  Http.Await
    [ setThreadId (Some (Types.thread_id task));
      setStatus (Types.status task);
      setActiveTab (js "generator") ]
    (API_URL ++ js "/state/" ++ Types.thread_id task)
    (fun reply =>
       match reply with
       | Http.Resolved state =>
           setCurrentState state
           :: (if str_eqb (Types.status task) (js "running")
                  || str_eqb (Types.status task) (js "halted")
               then [startPolling (Types.thread_id task)]
               else [])
       | Http.Rejected _ => [setError (Some (js "Failed to load task"))]
       end).

(** *** startPolling *)

(** The component's [useState] cells. *)
Record Cells : Type := {
  intent : jsstring;
  threadId : option jsstring;
  status : jsstring;
  currentState : option Types.GraphState;
  error : option jsstring;
  tasks : list Types.Task;
  showTasks : bool;
  activeTab : jsstring
}.

Definition with_threadId (t : option jsstring) (c : Cells) : Cells :=
  {| intent := intent c; threadId := t; status := status c;
     currentState := currentState c; error := error c; tasks := tasks c;
     showTasks := showTasks c; activeTab := activeTab c |}.

Definition with_status (s : jsstring) (c : Cells) : Cells :=
  {| intent := intent c; threadId := threadId c; status := s;
     currentState := currentState c; error := error c; tasks := tasks c;
     showTasks := showTasks c; activeTab := activeTab c |}.

Definition with_currentState (g : option Types.GraphState) (c : Cells) : Cells :=
  {| intent := intent c; threadId := threadId c; status := status c;
     currentState := g; error := error c; tasks := tasks c;
     showTasks := showTasks c; activeTab := activeTab c |}.

Definition with_error (e : option jsstring) (c : Cells) : Cells :=
  {| intent := intent c; threadId := threadId c; status := status c;
     currentState := currentState c; error := e; tasks := tasks c;
     showTasks := showTasks c; activeTab := activeTab c |}.

Definition with_tasks (l : list Types.Task) (c : Cells) : Cells :=
  {| intent := intent c; threadId := threadId c; status := status c;
     currentState := currentState c; error := error c; tasks := l;
     showTasks := showTasks c; activeTab := activeTab c |}.

Definition with_activeTab (tab : jsstring) (c : Cells) : Cells :=
  {| intent := intent c; threadId := threadId c; status := status c;
     currentState := currentState c; error := error c; tasks := tasks c;
     showTasks := showTasks c; activeTab := tab |}.

(** One [setInterval] of [startPolling]: the thread its callback asks
    for, the callback's [pollCount], and whether the runtime still has
    the interval scheduled ([clearInterval] unschedules it). *)
Record Timer : Type := {
  tid : jsstring;
  pollCount : nat;
  scheduled : bool
}.

(** What [GET /state/:tid] resolves with: [data.status], [data.state]. *)
Record Polled : Type := {
  polled_status : option jsstring;
  polled_state : option Types.GraphState
}.

(** The component with its polling: the cells, [pollIntervalRef.current]
    ([None] for [null]; a handle is truthy), the runtime's timers (an
    interval's handle is its index), the callbacks that await a reply
    (by timer), and every state request the callbacks sent so far,
    newest first. *)
Record Poller : Type := {
  cells : Cells;
  pollIntervalRef : option nat;
  timers : list Timer;
  awaiting : list nat;
  requests : list jsstring
}.

Definition initial : Poller :=
  {| cells := {| intent := []; threadId := None; status := js "idle";
                 currentState := None; error := None; tasks := [];
                 showTasks := false; activeTab := js "generator" |};
     pollIntervalRef := None; timers := []; awaiting := [];
     requests := [] |}.

Definition set_cells (f : Cells -> Cells) (p : Poller) : Poller :=
  {| cells := f (cells p); pollIntervalRef := pollIntervalRef p;
     timers := timers p; awaiting := awaiting p; requests := requests p |}.

Fixpoint update (i : nat) (f : Timer -> Timer) (l : list Timer) : list Timer :=
  match l, i with
  | [], _ => []
  | t :: l', O => f t :: l'
  | t :: l', S i' => t :: update i' f l'
  end.

Definition clearInterval (i : nat) (l : list Timer) : list Timer :=
  update i (fun t => {| tid := tid t; pollCount := pollCount t;
                        scheduled := false |}) l.

(** [if (ref.current) { clearInterval(ref.current); ref.current = null }]. *)
Definition stop (p : Poller) : Poller :=
  match pollIntervalRef p with
  | Some i =>
      {| cells := cells p; pollIntervalRef := None;
         timers := clearInterval i (timers p);
         awaiting := awaiting p; requests := requests p |}
  | None => p
  end.

(** [startPolling(tid)]: clear the interval the ref holds, then set a
    new one, with its own [pollCount], and keep its handle in the ref. *)
Definition do_startPolling (t : jsstring) (p : Poller) : Poller :=
  let cleared :=
    match pollIntervalRef p with
    | Some i => clearInterval i (timers p)
    | None => timers p
    end in
  {| cells := cells p;
     pollIntervalRef := Some (List.length cleared);
     timers := cleared ++ [{| tid := t; pollCount := 0; scheduled := true |}];
     awaiting := awaiting p; requests := requests p |}.

(** The statuses that end the polling. *)
Definition final_statuses : list jsstring :=
  [js "completed"; js "halted"; js "error"; js "rejected"].

Definition includes (l : list jsstring) (s : jsstring) : bool :=
  existsb (str_eqb s) l.

Definition or_empty (s : option jsstring) : jsstring :=
  match s with
  | Some v => v
  | None => []
  end.

(** The interval fires: the callback counts the poll and sends its
    request.  An interval that was cleared does not fire. *)
Definition fire (i : nat) (p : Poller) : Poller :=
  match nth_error (timers p) i with
  | Some t =>
      if scheduled t
      then
        {| cells := cells p; pollIntervalRef := pollIntervalRef p;
           timers :=
             update i (fun t => {| tid := tid t; pollCount := S (pollCount t);
                                   scheduled := scheduled t |}) (timers p);
           awaiting := i :: awaiting p;
           requests := tid t :: requests p |}
      else p
  | None => p
  end.

Fixpoint remove_one (i : nat) (l : list nat) : list nat :=
  match l with
  | [] => []
  | j :: l' => if Nat.eqb i j then l' else j :: remove_one i l'
  end.

Definition answered (i : nat) (p : Poller) : Poller :=
  {| cells := cells p; pollIntervalRef := pollIntervalRef p;
     timers := timers p; awaiting := remove_one i (awaiting p);
     requests := requests p |}.

(** The rest of the callback of timer [i], once its request settled. *)
Definition settle (i : nat) (reply : Http.Reply Polled) (p : Poller) : Poller :=
  if existsb (Nat.eqb i) (awaiting p)
  then
    let p := answered i p in
    match reply with
    | Http.Resolved d =>
        let newStatus := polled_status d in
        let p :=
          set_cells (with_status (or_else (or_empty newStatus) (js "unknown"))) p in
        let p := set_cells (with_currentState (polled_state d)) p in
        if includes final_statuses (or_empty newStatus) then stop p else p
    | Http.Rejected _ =>
        match nth_error (timers p) i with
        | Some t =>
            if Nat.ltb 10 (pollCount t)
            then
              let p := set_cells (with_status (js "error")) p in
              let p :=
                set_cells
                  (with_error (Some (js "Polling failed after multiple attempts")))
                  p in
              stop p
            else p
        | None => p
        end
    end
  else p.

Definition handleClear (p : Poller) : Poller :=
  let p := stop p in
  let p := set_cells (with_status (js "idle")) p in
  let p := set_cells (with_threadId None) p in
  let p := set_cells (with_currentState None) p in
  set_cells (with_error None) p.

(** The effect's cleanup on unmount: the interval is cleared, the ref
    keeps its handle. *)
Definition cleanup (p : Poller) : Poller :=
  match pollIntervalRef p with
  | Some i =>
      {| cells := cells p; pollIntervalRef := pollIntervalRef p;
         timers := clearInterval i (timers p);
         awaiting := awaiting p; requests := requests p |}
  | None => p
  end.

(** An action of [handleInvoke], [fetchTasks] or [loadTask] takes
    effect. *)
Definition perform (a : Action) (p : Poller) : Poller :=
  match a with
  | alert _ => p
  | setStatus s => set_cells (with_status s) p
  | setError e => set_cells (with_error e) p
  | setCurrentState g => set_cells (with_currentState g) p
  | setThreadId t => set_cells (with_threadId t) p
  | setTasks l => set_cells (with_tasks l) p
  | setActiveTab tab => set_cells (with_activeTab tab) p
  | startPolling t => do_startPolling t p
  end.

(** What can happen to the component: a handler's action, a timer
    firing, a reply reaching the callback that awaits it, [handleClear],
    the unmount. *)
Inductive Event : Type :=
| does (a : Action)
| fires (i : nat)
| settles (i : nat) (reply : Http.Reply Polled)
| calls_handleClear
| unmounts.

Definition step (p : Poller) (e : Event) : Poller :=
  match e with
  | does a => perform a p
  | fires i => fire i p
  | settles i reply => settle i reply p
  | calls_handleClear => handleClear p
  | unmounts => cleanup p
  end.

Definition run (evs : list Event) (p : Poller) : Poller :=
  fold_left step evs p.

(** The event is a call of [startPolling]. *)
Definition is_startPolling (e : Event) : bool :=
  match e with
  | does (startPolling _) => true
  | _ => false
  end.

(** No interval is scheduled any more. *)
Definition quiet (p : Poller) : Prop :=
  Forall (fun t => scheduled t = false) (timers p).

(** Only the interval whose handle the ref holds can be scheduled. *)
Definition sound (p : Poller) : Prop :=
  forall i t,
    nth_error (timers p) i = Some t -> scheduled t = true ->
    pollIntervalRef p = Some i.

End App.

(* ------------------------------------------------------------------ *)
(** ** The workflow engine behind [/invoke], [/state] and [/resume] *)
(* ------------------------------------------------------------------ *)

(** The engine (graph.py, main.py) is the server side of the requests
    above.  Its definitions follow sections 3, 4 and 6 of the
    specification. *)
Module Engine.

(** Modelled from the spec: the Agent Capability, section 2 and 6:
    [generate] yields a schema-valid structured result or an explicit
    failure, [ParseFailure] or [Timeout]. *)
Inductive Failure : Type := ParseFailure | Timeout.

Inductive AgentResult (A : Type) : Type :=
| success (value : A)
| failed (why : Failure).

Arguments success {A} value.
Arguments failed {A} why.

(** Modelled from the spec: the capability wraps an unreliable
    generator, section 2: [raw] is what the generator gave back in time,
    if anything, and only a value that passes the schema is let through. *)
Definition generate {A} (schema : A -> bool) (raw : option A) : AgentResult A :=
  match raw with
  | Some a => if schema a then success a else failed ParseFailure
  | None => failed Timeout
  end.

(** Modelled from the spec: the text recorded in [error] for an
    AgentFailure, section 7. *)
Definition describe (f : Failure) : jsstring :=
  match f with
  | ParseFailure => js "ParseFailure"
  | Timeout => js "Timeout"
  end.

(** Modelled from the spec: the Review schema, section 3:
    [score: integer 0..10]. *)
Definition Review_schema (r : Types.Review) : bool :=
  ((0 <=? Types.score r) && (Types.score r <=? 10))%Z.

(** Modelled from the spec: GraphState, section 3, with the
    [human_decision] the resume call attaches. *)
Record GraphState : Type := {
  user_intent : jsstring;
  draft : jsstring;
  draft_history : list jsstring;
  reviews : list Types.Review;
  scores : Types.Scores;
  supervisor_feedback : jsstring;
  iteration_count : nat;
  human_decision : option Resume.Payload;
  error : option jsstring;
  metadata : list (jsstring * Types.Json)
}.

(** Modelled from the spec: the status of a ThreadRecord, section 3. *)
Inductive Status : Type :=
| created | running | halted | resuming | completed | rejected | errored.

(** Modelled from the spec: the five nodes of the cycle, section 2,
    and the terminal state. *)
Inductive Node : Type :=
| Drafter | ReviewerPool | SupervisorSynthesizer | Router | HaltController
| Terminal.

(** Modelled from the spec: a ThreadRecord, section 3, with the engine's
    cursor (the node that runs next) in place of identity and time. *)
Record ThreadRecord : Type := {
  status : Status;
  state : GraphState;
  next : Node
}.

(** Modelled from the spec: the outcomes of the Router, section 4.4. *)
Inductive Route : Type := revise | halt | finalize | terminal_rejected.

(** Modelled from the spec: [error] is non-empty, section 4.4 rule 1. *)
Definition has_error (s : GraphState) : bool :=
  match error s with
  | Some e => truthy e
  | None => false
  end.

(** Modelled from the spec: the Router, section 4.4, its seven rules in
    order, first match wins. *)
Definition route (s : GraphState) : Route :=
  let safety := Types.safety (scores s) in
  let clinical := Types.clinical (scores s) in
  if has_error s then halt
  else match human_decision s with
  | Some d => if Resume.approved d then finalize else terminal_rejected
  | None =>
      if ((9 <=? safety) && (8 <=? clinical))%Z then halt
      else if (3 <=? iteration_count s) || (safety <? 6)%Z then halt
      else if ((safety <? 8) || (clinical <? 7))%Z then revise
      else halt
  end.

Definition with_error (e : option jsstring) (s : GraphState) : GraphState :=
  {| user_intent := user_intent s; draft := draft s;
     draft_history := draft_history s; reviews := reviews s;
     scores := scores s; supervisor_feedback := supervisor_feedback s;
     iteration_count := iteration_count s;
     human_decision := human_decision s; error := e;
     metadata := metadata s |}.

Definition with_draft (d : jsstring) (s : GraphState) : GraphState :=
  {| user_intent := user_intent s; draft := d;
     draft_history := draft_history s ++ [d]; reviews := reviews s;
     scores := scores s; supervisor_feedback := supervisor_feedback s;
     iteration_count := iteration_count s;
     human_decision := human_decision s; error := error s;
     metadata := metadata s |}.

Definition count_iteration (s : GraphState) : GraphState :=
  {| user_intent := user_intent s; draft := draft s;
     draft_history := draft_history s; reviews := reviews s;
     scores := scores s; supervisor_feedback := supervisor_feedback s;
     iteration_count := S (iteration_count s);
     human_decision := human_decision s; error := error s;
     metadata := metadata s |}.

(** Modelled from the spec: where the once-per-cycle increment of
    [iteration_count] is applied.  Section 4.1 leaves the point open
    ("pick one consistent point"): with the Drafter pass, or when the
    cycle completes.  Whether the first cycle counts is open too:
    section 3 counts every cycle ("number of completed cycles"), the
    Router vectors of section 8 and the README ("number of revision
    cycles") count the cycles that revise an earlier draft only. *)
Inductive IncrementPoint : Type :=
| with_drafter
| with_cycle
| with_revision
| with_revised_cycle.

(** Modelled from the spec: the Drafter pass revises, section 4.1: a
    draft exists already, so the pass does not produce the first one. *)
Definition revises (s : GraphState) : bool :=
  Nat.ltb 0 (List.length (draft_history s)).

(** Modelled from the spec: the cycle that completes has revised: its
    draft was not the first of the history. *)
Definition revised (s : GraphState) : bool :=
  Nat.ltb 1 (List.length (draft_history s)).

Section Cycle.

Variable point : IncrementPoint.

(** Modelled from the spec: the Drafter, section 4.1: the new draft
    becomes [draft] and is appended to [draft_history]; a failure sets
    [error].  The flag tells whether the pass succeeded. *)
Definition drafter (raw : option jsstring) (s : GraphState) : bool * GraphState :=
  match generate (fun _ => true) raw with
  | success d =>
      let s' := with_draft d s in
      (true, match point with
             | with_drafter => count_iteration s'
             | with_revision =>
                 if revises s then count_iteration s' else s'
             | with_cycle => s'
             | with_revised_cycle => s'
             end)
  | failed f => (false, with_error (Some (describe f)) s)
  end.

(** Modelled from the spec: the ReviewerPool, section 4.2: both
    reviewers succeed and [reviews] and [scores] are replaced, safety
    first, or the cycle fails with [error] set. *)
Definition reviewer_pool (raw_safety raw_clinical : option Types.Review)
    (s : GraphState) : bool * GraphState :=
  match generate Review_schema raw_safety,
        generate Review_schema raw_clinical with
  | success rs, success rc =>
      (true,
       {| user_intent := user_intent s; draft := draft s;
          draft_history := draft_history s; reviews := [rs; rc];
          scores := {| Types.safety := Types.score rs;
                       Types.clinical := Types.score rc |};
          supervisor_feedback := supervisor_feedback s;
          iteration_count := iteration_count s;
          human_decision := human_decision s; error := error s;
          metadata := metadata s |})
  | failed f, _ => (false, with_error (Some (describe f)) s)
  | _, failed f => (false, with_error (Some (describe f)) s)
  end.

(** Modelled from the spec: the SupervisorSynthesizer, section 4.3:
    with a [human_decision] attached it passes the state through;
    otherwise a non-empty feedback replaces [supervisor_feedback], which
    completes the cycle (and clears [error], section 3), or [error] is
    set. *)
Definition supervisor_synthesizer (raw : option jsstring) (s : GraphState)
  : GraphState :=
  match human_decision s with
  | Some _ => s
  | None =>
      match generate truthy raw with
      | success fb =>
          let s' :=
            {| user_intent := user_intent s; draft := draft s;
               draft_history := draft_history s; reviews := reviews s;
               scores := scores s; supervisor_feedback := fb;
               iteration_count := iteration_count s;
               human_decision := human_decision s; error := None;
               metadata := metadata s |} in
          match point with
          | with_drafter => s'
          | with_revision => s'
          | with_cycle => count_iteration s'
          | with_revised_cycle =>
              if revised s then count_iteration s' else s'
          end
      | failed f => with_error (Some (describe f)) s
      end
  end.

(** Modelled from the spec: resume, section 4.5: the decision is set on
    the loaded state, and an [edited_draft] that is present and differs
    from [draft] is appended to [draft_history] and becomes [draft]. *)
Definition resume (d : Resume.Payload) (s : GraphState) : GraphState :=
  let s :=
    {| user_intent := user_intent s; draft := draft s;
       draft_history := draft_history s; reviews := reviews s;
       scores := scores s; supervisor_feedback := supervisor_feedback s;
       iteration_count := iteration_count s;
       human_decision := Some d; error := error s;
       metadata := metadata s |} in
  match Resume.edited_draft d with
  | Some e => if str_neqb e (draft s) then with_draft e s else s
  | None => s
  end.

(** What reaches a thread from outside: the generators' raw outputs for
    the node that runs next, the Router's turn, an external resume. *)
Inductive Event : Type :=
| drafts (raw : option jsstring)
| reviews_arrive (raw_safety raw_clinical : option Types.Review)
| synthesizes (raw : option jsstring)
| routes
| resumes (d : Resume.Payload).

(** Modelled from the spec: the run loop, sections 2, 4.4 and 4.5.  A
    failed node short-circuits to the Router; [halt] suspends the thread
    as [halted]; a resume is accepted on a halted thread only, and
    re-enters at the SupervisorSynthesizer.  [None]: the event does not
    apply to the thread as it stands (InvalidState for a resume). *)
Definition step (t : ThreadRecord) (e : Event) : option ThreadRecord :=
  match next t, e with
  | Drafter, drafts raw =>
      let '(ok, s) := drafter raw (state t) in
      Some {| status := running; state := s;
              next := if ok then ReviewerPool else Router |}
  | ReviewerPool, reviews_arrive rs rc =>
      let '(ok, s) := reviewer_pool rs rc (state t) in
      Some {| status := running; state := s;
              next := if ok then SupervisorSynthesizer else Router |}
  | SupervisorSynthesizer, synthesizes raw =>
      Some {| status := running;
              state := supervisor_synthesizer raw (state t);
              next := Router |}
  | Router, routes =>
      Some match route (state t) with
           | revise =>
               {| status := running; state := state t; next := Drafter |}
           | halt =>
               {| status := halted; state := state t; next := HaltController |}
           | finalize =>
               {| status := completed; state := state t; next := Terminal |}
           | terminal_rejected =>
               {| status := rejected; state := state t; next := Terminal |}
           end
  | HaltController, resumes d =>
      match status t with
      | halted =>
          Some {| status := resuming; state := resume d (state t);
                  next := SupervisorSynthesizer |}
      | _ => None
      end
  | _, _ => None
  end.

Fixpoint run (evs : list Event) (t : ThreadRecord) : option ThreadRecord :=
  match evs with
  | [] => Some t
  | e :: evs' =>
      match step t e with
      | Some t' => run evs' t'
      | None => None
      end
  end.

End Cycle.

(** Modelled from the spec: [invoke], section 6: InvalidInput ([None])
    for an empty intent, else a ThreadRecord that is [running] and about
    to draft. *)
Definition invoke (intent : jsstring) : option ThreadRecord :=
  if truthy intent
  then Some {| status := running;
               state := {| user_intent := intent; draft := [];
                           draft_history := []; reviews := [];
                           scores := {| Types.safety := 0;
                                        Types.clinical := 0 |};
                           supervisor_feedback := [];
                           iteration_count := 0;
                           human_decision := None; error := None;
                           metadata := [] |};
               next := Drafter |}
  else None.

(** A thread the engine can be in: invoked, then moved by events. *)
Definition reachable (point : IncrementPoint) (t : ThreadRecord) : Prop :=
  exists intent t0 evs, invoke intent = Some t0 /\ run point evs t0 = Some t.




(** Every score of the latest review batch is an integer of 0..10. *)
Definition scores_in_range (s : GraphState) : Prop :=
  Forall (fun r => (0 <= Types.score r <= 10)%Z) (reviews s).

End Engine.

(* ------------------------------------------------------------------ *)
(** ** Sample values *)
(* ------------------------------------------------------------------ *)

Module Samples.

Definition safety_review : Types.Review :=
  {| Types.agent := js "SafetyGuardian"; Types.notes := js "No risk found";
     Types.score := 9; Types.reasoning := js "Grounding only" |}.

Definition clinical_review : Types.Review :=
  {| Types.agent := js "ClinicalCritic"; Types.notes := js "Sound";
     Types.score := 8; Types.reasoning := js "Standard protocol" |}.

(** A thread halted for sign-off on its first draft, as [/state] shows
    it to the client. *)
Definition halted_state : Types.GraphState :=
  {| Types.draft := js "A";
     Types.draft_history := [js "A"];
     Types.reviews := [safety_review; clinical_review];
     Types.scores := {| Types.safety := 9; Types.clinical := 8 |};
     Types.iteration_count := 1;
     Types.supervisor_feedback := js "Ready for sign-off";
     Types.user_intent := js "Design a panic attack grounding exercise";
     Types.error := None;
     Types.metadata := None |}.

Definition props : HumanReview.HumanReviewProps :=
  {| HumanReview.threadId := js "thread_1a2b3c4d";
     HumanReview.state := halted_state |}.

(** The reviewer replaced the draft by "B" and left the feedback box
    empty. *)
Definition edited : HumanReview.Cells :=
  {| HumanReview.editedDraft := js "B";
     HumanReview.feedback := [];
     HumanReview.isProcessing := false;
     HumanReview.activeTab := HumanReview.edit |}.

(** The same thread as the engine holds it. *)
Definition engine_state : Engine.GraphState :=
  {| Engine.user_intent := js "Design a panic attack grounding exercise";
     Engine.draft := js "A";
     Engine.draft_history := [js "A"];
     Engine.reviews := [safety_review; clinical_review];
     Engine.scores := {| Types.safety := 9; Types.clinical := 8 |};
     Engine.supervisor_feedback := js "Ready for sign-off";
     Engine.iteration_count := 1;
     Engine.human_decision := None;
     Engine.error := None;
     Engine.metadata := [] |}.

(** An approved thread with top scores whose last cycle failed. *)
Definition failed_state : Engine.GraphState :=
  {| Engine.user_intent := js "Create a values clarification exercise";
     Engine.draft := js "A";
     Engine.draft_history := [js "A"];
     Engine.reviews := [safety_review; clinical_review];
     Engine.scores := {| Types.safety := 9; Types.clinical := 8 |};
     Engine.supervisor_feedback := js "Ready for sign-off";
     Engine.iteration_count := 5;
     Engine.human_decision :=
       Some {| Resume.approved := true; Resume.feedback := js "ok";
               Resume.edited_draft := None |};
     Engine.error := Some (js "Timeout");
     Engine.metadata := [] |}.

(** A runtime's [Date] on the three timestamps below; any other string
    is an invalid date to it. *)
Definition getTime (s : jsstring) : option Z :=
  if str_eqb s (js "2025-12-01T10:00:00Z") then Some 1764583200000%Z
  else if str_eqb s (js "2025-12-03T08:30:00Z") then Some 1764750600000%Z
  else if str_eqb s (js "2025-12-02T23:59:59Z") then Some 1764719999000%Z
  else None.

(** A reply of [GET /tasks] with three threads, oldest first. *)
Definition tasks_reply : Http.Reply App.TasksReply :=
  Http.Resolved
    {| App.success := true;
       App.reply_tasks :=
         Some [ (js "thread_a",
                 {| App.raw_status := js "completed";
                    App.raw_intent := Some (js "Create a sleep hygiene protocol");
                    App.raw_created_at := js "2025-12-01T10:00:00Z";
                    App.raw_iterations := Some 2%Z |});
                (js "thread_b",
                 {| App.raw_status := js "halted";
                    App.raw_intent := Some [];
                    App.raw_created_at := js "2025-12-03T08:30:00Z";
                    App.raw_iterations := None |});
                (js "thread_c",
                 {| App.raw_status := js "running";
                    App.raw_intent := None;
                    App.raw_created_at := js "2025-12-02T23:59:59Z";
                    App.raw_iterations := Some 0%Z |}) ] |}.




(** The same state as the README has it. *)
Definition failed_shared_state : Readme.GraphState :=
  {| Readme.user_intent := js "Create a values clarification exercise";
     Readme.draft := js "A";
     Readme.reviews := [safety_review; clinical_review];
     Readme.scores := {| Types.safety := 9; Types.clinical := 8 |};
     Readme.supervisor_feedback := js "Ready for sign-off";
     Readme.iteration_count := 5;
     Readme.human_approved := true;
     Readme.error := Some (js "Timeout") |}.

(** A state with the given scores and iteration count, no error and no
    human decision. *)
Definition scored (safety clinical : Z) (iterations : nat) : Engine.GraphState :=
  {| Engine.user_intent := js "Create a values clarification exercise";
     Engine.draft := js "A";
     Engine.draft_history := [js "A"];
     Engine.reviews := [];
     Engine.scores := {| Types.safety := safety; Types.clinical := clinical |};
     Engine.supervisor_feedback := [];
     Engine.iteration_count := iterations;
     Engine.human_decision := None;
     Engine.error := None;
     Engine.metadata := [] |}.

(** One complete cycle on a fresh thread, no failure, no human edit. *)
Definition one_cycle : list Engine.Event :=
  [ Engine.drafts (Some (js "A"));
    Engine.reviews_arrive (Some safety_review) (Some clinical_review);
    Engine.synthesizes (Some (js "Ready for sign-off")) ].


(** Polling of a thread starts, the interval fires twice before the
    first reply, which reports [halted]; then stale events follow. *)
Definition polling : list App.Event :=
  [App.does (App.startPolling (js "thread_b")); App.fires 0; App.fires 0].

Definition halted_reply : App.Polled :=
  {| App.polled_status := Some (js "halted");
     App.polled_state := Some halted_state |}.

Definition afterwards : list App.Event :=
  [ App.fires 0;
    App.settles 0
      (Http.Resolved {| App.polled_status := Some (js "running");
                        App.polled_state := None |});
    App.fires 0; App.does (App.setStatus (js "resuming")); App.unmounts;
    App.fires 1; App.calls_handleClear; App.fires 0 ].

End Samples.

(* ------------------------------------------------------------------ *)
(** ** Handlers, before and after the reply *)
(* ------------------------------------------------------------------ *)

Module Flow.

(** What a handler does up to its [await] (all it does, if it returns
    before). *)
Definition before {Act Req D} (h : Http.Handler Act Req D) : list Act :=
  match h with
  | Http.Return acts => acts
  | Http.Await acts _ _ => acts
  end.

(** What it does once the reply is there. *)
Definition after {Act Req D} (h : Http.Handler Act Req D)
    (reply : Http.Reply D) : list Act :=
  match h with
  | Http.Return _ => []
  | Http.Await _ _ k => k reply
  end.

Definition all {Act Req D} (h : Http.Handler Act Req D)
    (reply : Http.Reply D) : list Act :=
  before h ++ after h reply.

End Flow.

(* ------------------------------------------------------------------ *)
(** ** frontend/src/App.tsx: the rendered page and its wiring *)
(* ------------------------------------------------------------------ *)

Module View.

Definition EXAMPLE_INTENTS : list jsstring :=
  [ js "Create a CBT exercise for challenging anxious thoughts";
    js "Design a mindfulness exercise for stress reduction";
    js "Create an exposure hierarchy for social anxiety";
    js "Design a behavioral activation exercise for depression";
    js "Create a thought record exercise for cognitive restructuring";
    js "Create a sleep hygiene protocol for insomnia";
    js "Design a panic attack grounding exercise";
    js "Create an exercise for managing perfectionism";
    js "Design a self-compassion meditation script";
    js "Create a values clarification exercise" ].

(** [setIntent]. *)
Definition with_intent (i : jsstring) (c : App.Cells) : App.Cells :=
  {| App.intent := i; App.threadId := App.threadId c;
     App.status := App.status c; App.currentState := App.currentState c;
     App.error := App.error c; App.tasks := App.tasks c;
     App.showTasks := App.showTasks c; App.activeTab := App.activeTab c |}.

Definition handleExampleClick (exampleIntent : jsstring) (c : App.Cells)
  : App.Cells :=
  with_intent exampleIntent c.

(** [activeTab === 'generator']: the tab that holds the form, the
    status, the review panel and the result. *)
Definition on_generator (c : App.Cells) : bool :=
  str_eqb (App.activeTab c) (js "generator").

(** [status === 'processing' || status === 'resuming']: [disabled] of
    the textarea and of the example buttons. *)
Definition busy (c : App.Cells) : bool :=
  str_eqb (App.status c) (js "processing")
  || str_eqb (App.status c) (js "resuming").

(** [disabled] of the Generate button. *)
Definition generate_disabled (c : App.Cells) : bool :=
  busy c || negb (truthy (trim (App.intent c))).

(** A click on the Generate button: a disabled button, or one that is
    not rendered, runs no handler. *)
Definition press_generate (c : App.Cells)
  : option (Http.Handler App.Action App.InvokeRequest (option jsstring)) :=
  if on_generator c && negb (generate_disabled c)
  then Some (App.handleInvoke (App.intent c))
  else None.

(** [status === 'halted' && currentState && threadId]: the props
    HumanReview is rendered with, when it is rendered. *)
Definition review (c : App.Cells) : option HumanReview.HumanReviewProps :=
  if on_generator c && str_eqb (App.status c) (js "halted")
  then
    match App.currentState c, App.threadId c with
    | Some g, Some t =>
        if truthy t
        then Some {| HumanReview.threadId := t; HumanReview.state := g |}
        else None
    | _, _ => None
    end
  else None.

(** [status === 'completed' && currentState]: the state the final
    result is rendered from, when it is rendered. *)
Definition final (c : App.Cells) : option Types.GraphState :=
  if on_generator c && str_eqb (App.status c) (js "completed")
  then App.currentState c
  else None.

(** The callbacks HumanReview is given: [onComplete={handleClear}],
    [onResuming={() => setStatus('resuming')}].  Its other actions stay
    inside the panel. *)
Definition review_callback (a : HumanReview.Action) : list App.Event :=
  match a with
  | HumanReview.onComplete => [App.calls_handleClear]
  | HumanReview.onResuming => [App.does (App.setStatus (js "resuming"))]
  | HumanReview.setIsProcessing _ => []
  | HumanReview.alert _ => []
  end.

(** The actions of a handler of [App], as events of the component. *)
Definition performs (acts : list App.Action) : list App.Event :=
  map App.does acts.

(** An event that comes from the runtime, not from the user or a
    handler: a timer, a reply, the unmount. *)
Definition spontaneous (e : App.Event) : bool :=
  match e with
  | App.fires _ => true
  | App.settles _ _ => true
  | App.unmounts => true
  | App.does _ => false
  | App.calls_handleClear => false
  end.

(** The event sets a thread id. *)
Definition sets_threadId (e : App.Event) : bool :=
  match e with
  | App.does (App.setThreadId (Some _)) => true
  | _ => false
  end.

(** Every interval that is still scheduled polls thread [t]. *)
Definition polls (t : jsstring) (l : list App.Timer) : Prop :=
  forall i tm,
    nth_error l i = Some tm -> App.scheduled tm = true -> App.tid tm = t.

End View.

(* ------------------------------------------------------------------ *)
(** ** frontend/src/components/HumanReview.tsx: the panel's controls *)
(* ------------------------------------------------------------------ *)

Module ReviewPanel.

Definition setEditedDraft (d : jsstring) (c : HumanReview.Cells)
  : HumanReview.Cells :=
  {| HumanReview.editedDraft := d;
     HumanReview.feedback := HumanReview.feedback c;
     HumanReview.isProcessing := HumanReview.isProcessing c;
     HumanReview.activeTab := HumanReview.activeTab c |}.

Definition setFeedback (f : jsstring) (c : HumanReview.Cells)
  : HumanReview.Cells :=
  {| HumanReview.editedDraft := HumanReview.editedDraft c;
     HumanReview.feedback := f;
     HumanReview.isProcessing := HumanReview.isProcessing c;
     HumanReview.activeTab := HumanReview.activeTab c |}.

(** An action of a handler takes effect on the panel, [None] when it
    is not mounted.  [setIsProcessing] writes its cell and [alert]
    leaves the cells alone.  [onResuming] and [onComplete] make App set
    the status to resuming, or clear the page: App then renders no
    panel, which unmounts it and discards its cells.  On a panel that is
    not mounted nothing takes effect. *)
Definition perform (panel : option HumanReview.Cells)
    (a : HumanReview.Action) : option HumanReview.Cells :=
  match panel with
  | Some c =>
      match a with
      | HumanReview.setIsProcessing b =>
          Some {| HumanReview.editedDraft := HumanReview.editedDraft c;
                  HumanReview.feedback := HumanReview.feedback c;
                  HumanReview.isProcessing := b;
                  HumanReview.activeTab := HumanReview.activeTab c |}
      | HumanReview.alert _ => Some c
      | HumanReview.onResuming => None
      | HumanReview.onComplete => None
      end
  | None => None
  end.

Definition performs (acts : list HumanReview.Action)
    (panel : option HumanReview.Cells) : option HumanReview.Cells :=
  fold_left perform acts panel.

(** The "Draft n" buttons: one per entry of [draft_history], rendered
    when [state.draft_history.length > 1]. *)
Definition history_buttons (props : HumanReview.HumanReviewProps)
  : list jsstring :=
  let h := Types.draft_history (HumanReview.state props) in
  if Nat.ltb 1 (List.length h) then h else [].

(** A click on the button of that index: [setEditedDraft(draft)]. *)
Definition pick (props : HumanReview.HumanReviewProps) (index : nat)
    (c : HumanReview.Cells) : HumanReview.Cells :=
  match nth_error (history_buttons props) index with
  | Some d => setEditedDraft d c
  | None => c
  end.


End ReviewPanel.

(* ------------------------------------------------------------------ *)
(** ** Sample runs *)
(* ------------------------------------------------------------------ *)

Module Scenarios.

(** The poll of a new thread has just reported [halted]; no other reply
    is awaited. *)
Definition at_halt : App.Poller :=
  App.run
    [ App.does (App.setThreadId (Some (js "thread_1a2b3c4d")));
      App.does (App.startPolling (js "thread_1a2b3c4d"));
      App.fires 0;
      App.settles 0 (Http.Resolved Samples.halted_reply) ]
    App.initial.

Definition running_reply : Http.Reply App.Polled :=
  Http.Resolved {| App.polled_status := Some (js "running");
                   App.polled_state := None |}.

Definition network_error : Http.AxiosError :=
  {| Http.code := Some (js "ERR_NETWORK"); Http.response := None;
     Http.request := true; Http.message := js "Network Error" |}.

(** Ten polls answered with [running], an eleventh under way. *)
Definition eleven_polls : list App.Event :=
  App.does (App.startPolling (js "thread_c"))
  :: concat (repeat [App.fires 0; App.settles 0 running_reply] 10)
  ++ [App.fires 0].

(** A poll of thread a is under way when thread b gets polled. *)
Definition two_threads : list App.Event :=
  [ App.does (App.startPolling (js "thread_a")); App.fires 0 ].

(** Timer and reply events with no call of a handler among them. *)
Definition stale_events : list App.Event :=
  [ App.fires 0; App.fires 1; App.settles 0 running_reply; App.unmounts;
    App.fires 1; App.settles 1 running_reply ].

(** The panel on a thread with two drafts, the older one picked. *)
Definition two_drafts : HumanReview.HumanReviewProps :=
  {| HumanReview.threadId := js "thread_b";
     HumanReview.state :=
       {| Types.draft := js "B";
          Types.draft_history := [js "A"; js "B"];
          Types.reviews := [];
          Types.scores := {| Types.safety := 8; Types.clinical := 8 |};
          Types.iteration_count := 2;
          Types.supervisor_feedback := [];
          Types.user_intent := js "Create a values clarification exercise";
          Types.error := None;
          Types.metadata := None |} |}.


Definition completed_task : Types.Task :=
  {| Types.thread_id := js "thread_a"; Types.status := js "completed";
     Types.intent := js "Create a sleep hygiene protocol";
     Types.created_at := js "2025-12-01T10:00:00Z"; Types.iterations := 2 |}.

(** A state of the README with low scores on its second iteration. *)
Definition needs_revision : Readme.GraphState :=
  {| Readme.user_intent := js "Create a values clarification exercise";
     Readme.draft := js "A";
     Readme.reviews := [];
     Readme.scores := {| Types.safety := 7; Types.clinical := 6 |};
     Readme.supervisor_feedback := js "Add a grounding step";
     Readme.iteration_count := 1;
     Readme.human_approved := false;
     Readme.error := None |}.

End Scenarios.

(* ================================================================== *)
(** * Properties *)
(* ================================================================== *)

(** ** Strings *)

Lemma str_eqb_eq (a b : jsstring) : str_eqb a b = true <-> a = b.
Proof.
  revert b; induction a as [|x a IH]; intros [|y b]; simpl;
    try (split; [discriminate | discriminate]); try tauto.
  rewrite andb_true_iff, N.eqb_eq, IH.
  split; [intros [-> ->]; reflexivity | intros H; inversion H; auto].
Qed.

Lemma str_neqb_neq (a b : jsstring) : str_neqb a b = true <-> a <> b.
Proof.
  unfold str_neqb. rewrite negb_true_iff, <- not_true_iff_false, str_eqb_eq.
  tauto.
Qed.

Lemma truthy_nonempty (s : jsstring) : truthy s = true <-> s <> [].
Proof. destruct s; simpl; split; congruence. Qed.

Lemma trimStart_blank (s : jsstring) : trimStart s = [] <-> blank s = true.
Proof.
  unfold blank. induction s as [|c s IH]; simpl; [tauto|].
  destruct (is_whitespace c); simpl; [exact IH | split; discriminate].
Qed.

Lemma blank_rev (s : jsstring) : blank (rev s) = blank s.
Proof.
  unfold blank. induction s as [|c s IH]; simpl; [reflexivity|].
  rewrite forallb_app, IH. simpl. rewrite andb_true_r. apply andb_comm.
Qed.

Lemma trimStart_suffix (s : jsstring) :
  exists p, s = p ++ trimStart s /\ blank p = true.
Proof.
  induction s as [|c s [p [E B]]]; simpl.
  - exists []. split; reflexivity.
  - destruct (is_whitespace c) eqn:W.
    + exists (c :: p). split; [simpl; congruence | simpl; rewrite W; exact B].
    + exists []. split; reflexivity.
Qed.

Lemma trimStart_head (s : jsstring) c t :
  trimStart s = c :: t -> is_whitespace c = false.
Proof.
  induction s as [|d s IH]; simpl; [discriminate|].
  destruct (is_whitespace d) eqn:W; [exact IH|].
  intros H; inversion H; subst; exact W.
Qed.

(** [trim] yields the empty string exactly on blank input. *)
Lemma trim_empty_iff (s : jsstring) : trim s = [] <-> blank s = true.
Proof.
  unfold trim, trimEnd. split.
  - intros H.
    assert (R : trimStart (rev (trimStart s)) = []).
    { apply (f_equal (@rev N)) in H. rewrite rev_involutive in H. exact H. }
    apply trimStart_blank in R. rewrite blank_rev in R.
    destruct (trimStart s) as [|c t] eqn:E.
    + apply trimStart_blank; exact E.
    + apply trimStart_head in E. simpl in R. rewrite E in R. discriminate.
  - intros B. apply trimStart_blank in B. rewrite B. reflexivity.
Qed.

(** [trim] removes a blank prefix and a blank suffix, and nothing else. *)
Lemma trim_decompose (s : jsstring) :
  exists p q, s = p ++ trim s ++ q /\ blank p = true /\ blank q = true.
Proof.
  destruct (trimStart_suffix s) as [p [E B]].
  destruct (trimStart_suffix (rev (trimStart s))) as [q [E' B']].
  exists p, (rev q). unfold trim, trimEnd.
  rewrite <- rev_app_distr, <- E', rev_involutive, blank_rev. auto.
Qed.

(** A non-empty [trim] result neither starts nor ends with white space. *)
Lemma trim_ends (s : jsstring) c t :
  trim s = c :: t ->
  is_whitespace c = false /\ is_whitespace (last (c :: t) c) = false.
Proof.
  unfold trim, trimEnd. intros H.
  pose proof (f_equal (@rev N) H) as R. rewrite rev_involutive in R.
  assert (L : is_whitespace (last (c :: t) c) = false).
  { destruct (rev (c :: t)) as [|d u] eqn:E.
    - apply (f_equal (@length N)) in E. rewrite length_rev in E. discriminate.
    - apply trimStart_head in R.
      assert (E2 : c :: t = rev u ++ [d]).
      { rewrite <- (rev_involutive (c :: t)), E. reflexivity. }
      rewrite E2, last_last. exact R. }
  split; [|exact L].
  destruct (trimStart s) as [|d u] eqn:E.
  - simpl in H. discriminate.
  - pose proof (trimStart_head _ _ _ E) as Wd.
    destruct (trimStart_suffix (rev (d :: u))) as [q [Eq Bq]].
    rewrite R in Eq.
    apply (f_equal (@rev N)) in Eq. rewrite rev_involutive, rev_app_distr in Eq.
    rewrite rev_involutive in Eq. simpl in Eq. inversion Eq; subst; exact Wd.
Qed.

Example trim_strips_both_ends :
  trim ([32; 9; 160]%N ++ js "calm  down" ++ [10; 8232]%N) = js "calm  down".
Proof. reflexivity. Qed.

Example trim_of_white_space : trim [32; 9; 10; 12288]%N = [].
Proof. reflexivity. Qed.

(** ** The declared interfaces *)

(** C3, as the client declares it: GraphState has the members draft
    (string), draft_history (array of string), reviews (array of
    Review), scores (an object of the numbers safety and clinical),
    iteration_count (number), supervisor_feedback (string), user_intent
    (string) and the optional error (string) and metadata (any value by
    key), and no member human_decision (nor does the shared state of the
    README, which lists a flag human_approved); the decision is the body
    of the resume request a click sends: approved (true on Approve,
    false on Reject), feedback (the reviewer's text, or the button's
    default) and, on an approval of an edited draft only, edited_draft. *)
Theorem GraphState_members :
  map (fun m => (Types.member_name m, Types.member_optional m,
                 Types.member_type m))
      Types.GraphState_interface
  = [ ("draft"%string, false, Types.TString);
      ("draft_history"%string, false, Types.TArray Types.TString);
      ("reviews"%string, false, Types.TArray (Types.TRef "Review"));
      ("scores"%string, false,
       Types.TObject [ Types.Mk_member "safety" false Types.TNumber;
                       Types.Mk_member "clinical" false Types.TNumber ]);
      ("iteration_count"%string, false, Types.TNumber);
      ("supervisor_feedback"%string, false, Types.TString);
      ("user_intent"%string, false, Types.TString);
      ("error"%string, true, Types.TString);
      ("metadata"%string, true, Types.TIndexSignature Types.TAny) ]
  /\ Types.declares Types.GraphState_interface "human_decision" = false
  /\ existsb (String.eqb "human_decision") Readme.GraphState_members = false
  /\ existsb (String.eqb "human_approved") Readme.GraphState_members = true
  /\ (forall props c,
        exists req,
          Http.issued (HumanReview.click HumanReview.Approve props c)
            = Some req
          /\ Resume.body req
             = {| Resume.approved := true;
                  Resume.feedback :=
                    or_else (HumanReview.feedback c)
                      (js "Approved without additional feedback");
                  Resume.edited_draft :=
                    if str_neqb (HumanReview.editedDraft c)
                         (Types.draft (HumanReview.state props))
                    then Some (HumanReview.editedDraft c)
                    else None |})
  /\ (forall props c,
        exists req,
          Http.issued (HumanReview.click HumanReview.Reject props c)
            = Some req
          /\ Resume.body req
             = {| Resume.approved := false;
                  Resume.feedback :=
                    or_else (HumanReview.feedback c)
                      (js "Rejected without specific feedback");
                  Resume.edited_draft := None |}).
Proof.
  do 4 (split; [reflexivity|]).
  split; intros props c; eexists; (split; [reflexivity|]).
  - unfold HumanReview.click, HumanReview.handleApprove. simpl.
    destruct (str_neqb _ _); reflexivity.
  - reflexivity.
Qed.

(** C3, as stated, fails: the GraphState interface declares no
    human_decision member. *)
Lemma GraphState_lacks_human_decision :
  ~ In "human_decision"%string
       (map Types.member_name Types.GraphState_interface).
Proof.
  simpl. intros H.
  repeat (destruct H as [H|H]; [discriminate H|]). exact H.
Qed.

(** ** HumanReview.tsx *)

Lemma handleApprove_issued props c :
  Http.issued (HumanReview.handleApprove props c)
  = Some {| Resume.url := HumanReview.resume_url props;
            Resume.body :=
              {| Resume.approved := true;
                 Resume.feedback :=
                   or_else (HumanReview.feedback c)
                     (js "Approved without additional feedback");
                 Resume.edited_draft :=
                   if str_neqb (HumanReview.editedDraft c)
                        (Types.draft (HumanReview.state props))
                   then Some (HumanReview.editedDraft c)
                   else None |} |}.
Proof.
  unfold HumanReview.handleApprove; simpl.
  destruct (str_neqb _ _); reflexivity.
Qed.

Lemma handleReject_issued props c :
  Http.issued (HumanReview.handleReject props c)
  = Some {| Resume.url := HumanReview.resume_url props;
            Resume.body :=
              {| Resume.approved := false;
                 Resume.feedback :=
                   or_else (HumanReview.feedback c)
                     (js "Rejected without specific feedback");
                 Resume.edited_draft := None |} |}.
Proof. reflexivity. Qed.

Lemma or_else_nonempty s d : d <> [] -> or_else s d <> [].
Proof. unfold or_else. destruct s; simpl; [auto | discriminate]. Qed.

(** C8: an approval carries [edited_draft] exactly when the edited text
    differs from the halted state's draft, and then it is the edited
    text; so whatever [edited_draft] a click transmits differs from that
    draft. *)
Theorem approve_carries_edit_iff_changed props c :
  (exists req,
     Http.issued (HumanReview.handleApprove props c) = Some req
     /\ (Resume.edited_draft (Resume.body req) <> None
         <-> HumanReview.editedDraft c <> Types.draft (HumanReview.state props))
     /\ (Resume.edited_draft (Resume.body req) <> None ->
         Resume.edited_draft (Resume.body req)
         = Some (HumanReview.editedDraft c)))
  /\ (forall d req e,
        Http.issued (HumanReview.click d props c) = Some req ->
        Resume.edited_draft (Resume.body req) = Some e ->
        e <> Types.draft (HumanReview.state props)).
Proof.
  split.
  - eexists. split; [apply handleApprove_issued|]. simpl.
    destruct (str_neqb _ _) eqn:E.
    + apply str_neqb_neq in E. split; [split; [auto | discriminate] | auto].
    + assert (N : ~ HumanReview.editedDraft c
                    <> Types.draft (HumanReview.state props)).
      { rewrite <- str_neqb_neq, E. discriminate. }
      split; [split; [congruence | tauto] | congruence].
  - intros [] req e I; unfold HumanReview.click in I.
    + rewrite handleApprove_issued in I. inversion I; subst; clear I. simpl.
      destruct (str_neqb _ _) eqn:E; [|discriminate].
      intros H; inversion H; subst. apply str_neqb_neq; exact E.
    + rewrite handleReject_issued in I. inversion I; subst. discriminate.
Qed.

(** On the halted draft "A" edited to "B". *)
Lemma approve_carries_edit_iff_changed_witness :
  exists req,
    Http.issued (HumanReview.handleApprove Samples.props Samples.edited)
      = Some req
    /\ Resume.edited_draft (Resume.body req) = Some (js "B")
    /\ js "B" <> Types.draft (HumanReview.state Samples.props).
Proof.
  destruct (approve_carries_edit_iff_changed Samples.props Samples.edited)
    as [[req [I [C E]]] D].
  assert (Ne : HumanReview.editedDraft Samples.edited
               <> Types.draft (HumanReview.state Samples.props))
    by discriminate.
  exists req. split; [exact I|].
  pose proof (E (proj2 C Ne)) as S. split; [exact S|].
  exact (D HumanReview.Approve req (js "B") I S).
Defined.


(** C9: the resume request of either button carries a non-empty
    feedback: the reviewer's own text when there is one, and else
    "Approved without additional feedback" on approval, "Rejected
    without specific feedback" on rejection. *)
Theorem resume_feedback_nonempty d props c :
  exists req,
    Http.issued (HumanReview.click d props c) = Some req
    /\ Resume.feedback (Resume.body req) <> []
    /\ (HumanReview.feedback c <> [] ->
        Resume.feedback (Resume.body req) = HumanReview.feedback c)
    /\ (HumanReview.feedback c = [] ->
        Resume.feedback (Resume.body req)
        = match d with
          | HumanReview.Approve => js "Approved without additional feedback"
          | HumanReview.Reject => js "Rejected without specific feedback"
          end).
Proof.
  destruct d; simpl; eexists;
    (split; [first [apply handleApprove_issued | apply handleReject_issued]|]);
    simpl; (split; [apply or_else_nonempty; discriminate|]);
    unfold or_else; destruct (HumanReview.feedback c); simpl;
    split; congruence.
Qed.

(** On a rejection with the feedback box left empty. *)
Lemma resume_feedback_nonempty_witness :
  exists req,
    Http.issued
      (HumanReview.click HumanReview.Reject Samples.props Samples.edited)
      = Some req
    /\ Resume.feedback (Resume.body req)
       = js "Rejected without specific feedback".
Proof.
  destruct (resume_feedback_nonempty HumanReview.Reject Samples.props
              Samples.edited) as [req [I [_ [_ D]]]].
  exists req. split; [exact I | apply D; reflexivity].
Defined.


(** C2 at a failing input: the halted draft is "A", the reviewer has
    edited it to "B" and rejects.  The resume request carries no
    [edited_draft], so the engine's resume leaves [draft_history] at
    ["A"]; the approval of the same edit carries "B", and the resume
    appends it. *)
Theorem reject_drops_the_edit :
  HumanReview.editedDraft Samples.edited
    <> Types.draft (HumanReview.state Samples.props)
  /\ (exists req,
        Http.issued (HumanReview.handleReject Samples.props Samples.edited)
          = Some req
        /\ Resume.edited_draft (Resume.body req) = None
        /\ Engine.draft_history
             (Engine.resume (Resume.body req) Samples.engine_state)
           = [js "A"])
  /\ (exists req,
        Http.issued (HumanReview.handleApprove Samples.props Samples.edited)
          = Some req
        /\ Resume.edited_draft (Resume.body req) = Some (js "B")
        /\ Engine.draft_history
             (Engine.resume (Resume.body req) Samples.engine_state)
           = [js "A"; js "B"]).
Proof.
  split; [discriminate|].
  split; eexists; (split; [reflexivity|]); split; reflexivity.
Qed.

(** ** App.tsx: handleInvoke *)

Lemma last_default (A : Type) (l : list A) (d d' : A) :
  l <> [] -> last l d = last l d'.
Proof.
  induction l as [|x [|y l] IH]; intros H; [congruence | reflexivity |].
  change (last (y :: l) d = last (y :: l) d'). apply IH. discriminate.
Qed.

Lemma truthy_trim_blank (s : jsstring) : truthy (trim s) = negb (blank s).
Proof.
  destruct (blank s) eqn:B.
  - apply trim_empty_iff in B. rewrite B. reflexivity.
  - destruct (trim s) eqn:T; [|reflexivity].
    apply trim_empty_iff in T. congruence.
Qed.

(** C4: on an empty or white-space-only intent [handleInvoke] only
    alerts: it issues no request, so no server is reached and no thread
    identifier is set or polled (and the engine's invoke would refuse
    the trimmed intent as InvalidInput); on any other intent it issues
    the invoke request, and the intent of whatever request it issues is
    the input with its white space at both ends removed. *)
Theorem handleInvoke_blank_or_trimmed (intent : jsstring) :
  (blank intent = true ->
     App.handleInvoke intent
       = Http.Return [App.alert (js "Please enter an intent")]
     /\ Http.issued (App.handleInvoke intent) = None
     /\ (forall (S : Type) serve (srv : S),
           Http.run serve (App.handleInvoke intent) srv
           = (srv, [App.alert (js "Please enter an intent")]))
     /\ Engine.invoke (trim intent) = None)
  /\ (blank intent = false ->
        exists req, Http.issued (App.handleInvoke intent) = Some req)
  /\ (forall req,
        Http.issued (App.handleInvoke intent) = Some req ->
        App.invoke_url req = API_URL ++ js "/invoke"
        /\ App.invoke_intent req = trim intent
        /\ trim intent <> []
        /\ exists p q,
             intent = p ++ App.invoke_intent req ++ q
             /\ blank p = true /\ blank q = true
             /\ is_whitespace (hd 0%N (App.invoke_intent req)) = false
             /\ is_whitespace (last (App.invoke_intent req) 0%N) = false).
Proof.
  unfold App.handleInvoke. rewrite truthy_trim_blank, negb_involutive.
  split; [|split].
  - intros B. rewrite B. repeat split.
    apply trim_empty_iff in B. rewrite B. reflexivity.
  - intros B. rewrite B. eexists; reflexivity.
  - intros req. destruct (blank intent) eqn:B; simpl; [discriminate|].
    intros H; inversion H; subst; clear H. simpl.
    assert (T : trim intent <> []).
    { intros T. apply trim_empty_iff in T. congruence. }
    repeat split; auto.
    destruct (trim_decompose intent) as [p [q [E [Bp Bq]]]].
    exists p, q. repeat split; auto.
    + destruct (trim intent) as [|c t] eqn:Tr; [congruence|].
      apply (trim_ends intent c t Tr).
    + destruct (trim intent) as [|c t] eqn:Tr; [congruence|].
      destruct (trim_ends intent c t Tr) as [_ L].
      rewrite (last_default N (c :: t) c 0%N) in L by discriminate. exact L.
Qed.

(** On three spaces, and on an intent with white space around it. *)
Lemma handleInvoke_blank_or_trimmed_witness :
  Http.issued (App.handleInvoke (js "   ")) = None
  /\ (exists req,
        Http.issued (App.handleInvoke (js " Create a thought record "))
          = Some req
        /\ App.invoke_intent req = js "Create a thought record").
Proof.
  split.
  - apply (proj1 (handleInvoke_blank_or_trimmed (js "   "))). reflexivity.
  - destruct (handleInvoke_blank_or_trimmed (js " Create a thought record "))
      as [_ [S T]].
    destruct (S eq_refl) as [req I]. exists req. split; [exact I|].
    destruct (T req I) as [_ [E _]]. rewrite E. reflexivity.
Defined.


Example handleInvoke_on_spaces :
  App.handleInvoke (js "   ")
  = Http.Return [App.alert (js "Please enter an intent")].
Proof. reflexivity. Qed.

Example handleInvoke_on_padded_intent :
  Http.issued (App.handleInvoke (js "  Design a panic attack grounding exercise "))
  = Some {| App.invoke_url := js "http://localhost:8000/invoke";
            App.invoke_intent := js "Design a panic attack grounding exercise";
            App.invoke_timeout := 10000 |}.
Proof. reflexivity. Qed.

(** ** The Router *)

Lemma supervisor_router_error_first (s : Readme.GraphState) :
  Readme.error_present s = true ->
  Readme.supervisor_router s = Readme.human_review_halt.
Proof. intros H. unfold Readme.supervisor_router. rewrite H. reflexivity. Qed.

(** C1: a state whose [error] is non-empty is routed to [halt],
    whatever its human decision, scores and iteration count; the router
    the README documents sends every such state to [human_review_halt]
    likewise. *)
Theorem route_error_first (s : Engine.GraphState) :
  Engine.has_error s = true ->
  Engine.route s = Engine.halt
  /\ (forall r,
        Readme.error r = Engine.error s ->
        Readme.supervisor_router r = Readme.human_review_halt).
Proof.
  intros H. split.
  - unfold Engine.route. rewrite H. reflexivity.
  - intros r E. apply supervisor_router_error_first.
    unfold Readme.error_present. rewrite E. exact H.
Qed.

(** The Router on the states of section 8. *)
Example route_high_scores : Engine.route (Samples.scored 9 8 0) = Engine.halt.
Proof. reflexivity. Qed.

Example route_unsafe : Engine.route (Samples.scored 5 9 0) = Engine.halt.
Proof. reflexivity. Qed.

Example route_low_scores : Engine.route (Samples.scored 7 6 1) = Engine.revise.
Proof. reflexivity. Qed.

Example route_borderline : Engine.route (Samples.scored 8 8 1) = Engine.halt.
Proof. reflexivity. Qed.

(** At a state that is approved, has top scores and five iterations, and
    whose error is "Timeout". *)
Lemma route_error_first_witness :
  Engine.human_decision Samples.failed_state
    = Some {| Resume.approved := true; Resume.feedback := js "ok";
              Resume.edited_draft := None |}
  /\ Engine.route Samples.failed_state = Engine.halt
  /\ Readme.supervisor_router Samples.failed_shared_state
     = Readme.human_review_halt.
Proof.
  split; [reflexivity|].
  destruct (route_error_first Samples.failed_state eq_refl) as [R D].
  split; [exact R | apply D; reflexivity].
Defined.

(** ** App.tsx: fetchTasks *)

Section Sorting.

Variable getTime : jsstring -> option Z.

Lemma insert_perm x l : Permutation (x :: l) (App.insert getTime x l).
Proof.
  induction l as [|y l IH]; simpl; [apply Permutation_refl|].
  destruct (App.SortCompare getTime x y <=? 0)%Z; [apply Permutation_refl|].
  eapply perm_trans; [apply perm_swap|]. apply perm_skip, IH.
Qed.

Lemma sort_perm l : Permutation l (App.sort getTime l).
Proof.
  induction l as [|x l IH]; simpl; [constructor|].
  eapply perm_trans; [apply perm_skip, IH | apply insert_perm].
Qed.







End Sorting.




(** ** App.tsx: startPolling *)

Lemma nth_error_update i f l j :
  nth_error (App.update i f l) j
  = if Nat.eqb i j then option_map f (nth_error l j) else nth_error l j.
Proof.
  revert i j. induction l as [|t l IH]; intros [|i] [|j]; simpl;
    try reflexivity.
  - destruct (Nat.eqb _ _); reflexivity.
  - apply IH.
Qed.

Lemma Forall_nth_error (A : Type) (P : A -> Prop) (l : list A) :
  (forall i a, nth_error l i = Some a -> P a) -> Forall P l.
Proof.
  intros H. apply Forall_forall. intros a Ha.
  destruct (In_nth_error _ _ Ha) as [i Hi]. eauto.
Qed.

(** Once the interval of the ref is cleared, nothing is scheduled. *)
Lemma cleared_quiet p :
  App.sound p ->
  Forall (fun t => App.scheduled t = false)
    match App.pollIntervalRef p with
    | Some i => App.clearInterval i (App.timers p)
    | None => App.timers p
    end.
Proof.
  intros S. apply Forall_nth_error. intros j t Hj.
  destruct (App.scheduled t) eqn:Sch; [|reflexivity]. exfalso.
  destruct (App.pollIntervalRef p) as [i|] eqn:R.
  - unfold App.clearInterval in Hj. rewrite nth_error_update in Hj.
    destruct (Nat.eqb i j) eqn:E.
    + destruct (nth_error (App.timers p) j); simpl in Hj; [|discriminate].
      inversion Hj; subst. simpl in Sch. discriminate.
    + apply Nat.eqb_neq in E. specialize (S j t Hj Sch). congruence.
  - specialize (S j t Hj Sch). congruence.
Qed.

Lemma quiet_sound p : App.quiet p -> App.sound p.
Proof.
  intros Q i t Hi Sch. exfalso.
  unfold App.quiet in Q. rewrite Forall_forall in Q.
  apply nth_error_In in Hi. rewrite (Q t Hi) in Sch. discriminate.
Qed.

Lemma stop_quiet p :
  App.sound p ->
  App.quiet (App.stop p) /\ App.pollIntervalRef (App.stop p) = None.
Proof.
  intros S. pose proof (cleared_quiet p S) as Q.
  unfold App.stop, App.quiet.
  destruct (App.pollIntervalRef p) eqn:R; simpl; auto.
Qed.

Lemma stop_requests p : App.requests (App.stop p) = App.requests p.
Proof. unfold App.stop. destruct (App.pollIntervalRef p); reflexivity. Qed.

Lemma stop_cells p : App.cells (App.stop p) = App.cells p.
Proof. unfold App.stop. destruct (App.pollIntervalRef p); reflexivity. Qed.

(** A quiet poller stays quiet under [stop]. *)
Lemma stop_keeps_quiet p : App.quiet p -> App.quiet (App.stop p).
Proof. intros Q. apply stop_quiet, quiet_sound, Q. Qed.

Lemma fire_sound i p : App.sound p -> App.sound (App.fire i p).
Proof.
  intros S. unfold App.fire.
  destruct (nth_error (App.timers p) i) as [t|] eqn:Hi; [|exact S].
  destruct (App.scheduled t) eqn:Sch; [|exact S].
  intros j u Hj Hu. simpl in *. rewrite nth_error_update in Hj.
  destruct (Nat.eqb i j) eqn:E.
  - apply Nat.eqb_eq in E; subst j. apply (S i t Hi Sch).
  - apply (S j u Hj Hu).
Qed.

Lemma startPolling_sound t p : App.sound p -> App.sound (App.do_startPolling t p).
Proof.
  intros S j u Hj Hu. pose proof (cleared_quiet p S) as Q.
  unfold App.do_startPolling in *. simpl in *.
  set (cleared := match App.pollIntervalRef p with
                  | Some i => App.clearInterval i (App.timers p)
                  | None => App.timers p
                  end) in *.
  destruct (Nat.lt_ge_cases j (List.length cleared)) as [Lt|Ge].
  - rewrite nth_error_app1 in Hj by exact Lt.
    rewrite Forall_forall in Q. apply nth_error_In in Hj.
    rewrite (Q u Hj) in Hu. discriminate.
  - rewrite nth_error_app2 in Hj by exact Ge.
    destruct (j - List.length cleared) as [|k] eqn:K; simpl in Hj.
    + f_equal. lia.
    + destruct k; discriminate.
Qed.

Lemma settle_sound i reply p : App.sound p -> App.sound (App.settle i reply p).
Proof.
  intros S. unfold App.settle.
  destruct (existsb _ _); [|exact S].
  assert (forall q, App.sound q -> App.sound (App.stop q)) as St
    by (intros q Sq; apply quiet_sound, stop_quiet, Sq).
  destruct reply as [d|err].
  - destruct (App.includes _ _); [apply St|]; exact S.
  - simpl. destruct (nth_error (App.timers p) i) as [t|]; [|exact S].
    destruct (Nat.ltb 10 (App.pollCount t)); [apply St|]; exact S.
Qed.

Lemma step_sound p e : App.sound p -> App.sound (App.step p e).
Proof.
  intros S. destruct e as [a| | | |]; simpl.
  - destruct a; simpl; try exact S. apply startPolling_sound, S.
  - apply fire_sound, S.
  - apply settle_sound, S.
  - apply quiet_sound.
    destruct (stop_quiet p S) as [Q _]. exact Q.
  - apply quiet_sound. pose proof (cleared_quiet p S) as Q.
    unfold App.cleanup, App.quiet.
    destruct (App.pollIntervalRef p); simpl; exact Q.
Qed.

Lemma run_sound evs p : App.sound p -> App.sound (App.run evs p).
Proof.
  revert p. induction evs as [|e evs IH]; intros p S; simpl; [exact S|].
  apply IH, step_sound, S.
Qed.

Lemma initial_sound : App.sound App.initial.
Proof. intros [|i] t H; discriminate H. Qed.

(** A cleared interval does not fire. *)
Lemma fire_quiet i p : App.quiet p -> App.fire i p = p.
Proof.
  intros Q. unfold App.fire.
  destruct (nth_error (App.timers p) i) as [t|] eqn:Hi; [|reflexivity].
  unfold App.quiet in Q. rewrite Forall_forall in Q.
  rewrite (Q t (nth_error_In _ _ Hi)). reflexivity.
Qed.

(** With nothing scheduled and no new call of [startPolling], no request
    is sent and nothing gets scheduled. *)
Lemma step_quiet p e :
  App.is_startPolling e = false -> App.quiet p ->
  App.quiet (App.step p e) /\ App.requests (App.step p e) = App.requests p.
Proof.
  intros NS Q. destruct e as [a| | | |]; simpl.
  - destruct a; simpl in *; try discriminate; auto.
  - rewrite (fire_quiet _ _ Q). auto.
  - unfold App.settle. destruct (existsb _ _); [|auto].
    destruct reply as [d|err].
    + destruct (App.includes _ _);
        [rewrite stop_requests; split; [apply stop_keeps_quiet|]|split];
        auto.
    + simpl. destruct (nth_error (App.timers p) i) as [t|]; [|auto].
      destruct (Nat.ltb 10 (App.pollCount t));
        [rewrite stop_requests; split; [apply stop_keeps_quiet|]|split];
        auto.
  - unfold App.handleClear. simpl. rewrite stop_requests. split; [|reflexivity].
    apply (stop_keeps_quiet p Q).
  - unfold App.cleanup, App.quiet.
    pose proof (cleared_quiet p (quiet_sound p Q)) as C.
    destruct (App.pollIntervalRef p); simpl; auto.
Qed.

Lemma run_quiet evs p :
  forallb (fun e => negb (App.is_startPolling e)) evs = true ->
  App.quiet p ->
  App.quiet (App.run evs p) /\ App.requests (App.run evs p) = App.requests p.
Proof.
  revert p. induction evs as [|e evs IH]; intros p NS Q; simpl; [auto|].
  simpl in NS. apply andb_true_iff in NS. destruct NS as [Ne NS].
  apply negb_true_iff in Ne.
  destruct (step_quiet p e Ne Q) as [Q' R'].
  destruct (IH _ NS Q') as [Q'' R'']. split; congruence.
Qed.

(** Whatever happens, at most one interval is scheduled: the one whose
    handle [pollIntervalRef] holds. *)
Theorem one_interval_at_most evs : App.sound (App.run evs App.initial).
Proof. apply run_sound, initial_sound. Qed.

(** C10: once the callback of a poll sees completed, halted, error or
    rejected, that status is shown, the ref is empty and no interval is
    scheduled any more; and whatever timer or reply events follow, as
    long as [startPolling] is not called anew, no further state request
    is sent. *)
Theorem polling_stops_on_final_status evs i d later :
  let p := App.run evs App.initial in
  let p' := App.step p (App.settles i (Http.Resolved d)) in
  In i (App.awaiting p) ->
  App.includes App.final_statuses (App.or_empty (App.polled_status d)) = true ->
  forallb (fun e => negb (App.is_startPolling e)) later = true ->
  App.status (App.cells p') = App.or_empty (App.polled_status d)
  /\ App.pollIntervalRef p' = None
  /\ App.quiet p'
  /\ App.requests p' = App.requests p
  /\ App.requests (App.run later p') = App.requests p.
Proof.
  intros p p' A F NS.
  assert (S : App.sound p) by (apply run_sound, initial_sound).
  assert (E : existsb (Nat.eqb i) (App.awaiting p) = true).
  { apply existsb_exists. exists i. split; [exact A | apply Nat.eqb_refl]. }
  assert (P : p' = App.stop
                     (App.set_cells
                        (App.with_currentState (App.polled_state d))
                        (App.set_cells
                           (App.with_status
                              (or_else (App.or_empty (App.polled_status d))
                                 (js "unknown")))
                           (App.answered i p)))).
  { unfold p'. simpl. unfold App.settle. rewrite E, F. reflexivity. }
  set (q := App.set_cells _ _) in P.
  assert (Sq : App.sound q) by exact S.
  destruct (stop_quiet q Sq) as [Q R].
  assert (T : or_else (App.or_empty (App.polled_status d)) (js "unknown")
              = App.or_empty (App.polled_status d)).
  { destruct (App.or_empty (App.polled_status d)); [discriminate F|reflexivity]. }
  rewrite P. rewrite stop_cells, stop_requests.
  repeat split; auto.
  destruct (run_quiet later (App.stop q) NS Q) as [_ RR].
  rewrite RR, stop_requests. reflexivity.
Qed.

(** Two polls are under way when the first reply reports [halted]; the
    second reply, stale timer events and a cleanup follow. *)
Lemma polling_stops_on_final_status_witness :
  App.requests (App.run Samples.polling App.initial)
    = [js "thread_b"; js "thread_b"]
  /\ App.requests
       (App.run Samples.afterwards
          (App.step (App.run Samples.polling App.initial)
             (App.settles 0 (Http.Resolved Samples.halted_reply))))
     = App.requests (App.run Samples.polling App.initial).
Proof.
  split; [reflexivity|].
  apply (polling_stops_on_final_status Samples.polling 0
           Samples.halted_reply Samples.afterwards);
    [simpl; auto | reflexivity | reflexivity].
Defined.

(** ** The workflow engine *)

Ltac step_cases H :=
  unfold Engine.step, Engine.drafter, Engine.reviewer_pool,
    Engine.supervisor_synthesizer, Engine.generate, Engine.resume in H;
  repeat match type of H with
         | context [match ?x with _ => _ end] =>
             lazymatch x with
             | context [match _ with _ => _ end] => fail
             | _ => destruct x eqn:?; simpl in H; try discriminate H
             end
         end;
  inversion H; subst; clear H; simpl in *.

Lemma run_invariant point (P : Engine.ThreadRecord -> Prop) :
  (forall t e t', P t -> Engine.step point t e = Some t' -> P t') ->
  forall evs t t', P t -> Engine.run point evs t = Some t' -> P t'.
Proof.
  intros Step evs. induction evs as [|e evs IH]; intros t t' Pt R; simpl in R.
  - inversion R; subst; exact Pt.
  - destruct (Engine.step point t e) as [t1|] eqn:E; [|discriminate].
    eapply IH; [eapply Step; eassumption | exact R].
Qed.

Lemma invoke_fresh intent t0 :
  Engine.invoke intent = Some t0 ->
  Engine.next t0 = Engine.Drafter
  /\ Engine.draft_history (Engine.state t0) = []
  /\ Engine.iteration_count (Engine.state t0) = 0
  /\ Engine.reviews (Engine.state t0) = []
  /\ Engine.human_decision (Engine.state t0) = None.
Proof.
  unfold Engine.invoke. destruct (truthy intent); [|discriminate].
  intros H; inversion H; subst; simpl. auto.
Qed.








(** The reviews of a state change only by a ReviewerPool pass, which
    replaces them by the two it validated. *)
Lemma step_reviews point t e t' :
  Engine.step point t e = Some t' ->
  Engine.reviews (Engine.state t') = Engine.reviews (Engine.state t)
  \/ (exists rs rc,
        e = Engine.reviews_arrive (Some rs) (Some rc)
        /\ Engine.Review_schema rs = true /\ Engine.Review_schema rc = true
        /\ Engine.reviews (Engine.state t') = [rs; rc]).
Proof.
  intros H. step_cases H; try (left; reflexivity).
  right. do 2 eexists. repeat split; assumption.
Qed.

Lemma Review_schema_range r :
  Engine.Review_schema r = true -> (0 <= Types.score r <= 10)%Z.
Proof. unfold Engine.Review_schema. lia. Qed.

Lemma reachable_scores point t :
  Engine.reachable point t -> Engine.scores_in_range (Engine.state t).
Proof.
  intros [intent [t0 [evs [I R]]]].
  destruct (invoke_fresh intent t0 I) as [_ [_ [_ [V _]]]].
  refine (run_invariant point
            (fun t => Engine.scores_in_range (Engine.state t))
            _ evs t0 t _ R).
  - intros a e b Pa S. unfold Engine.scores_in_range in *.
    destruct (step_reviews point a e b S) as [E|[rs [rc [_ [Vs [Vc E]]]]]];
      rewrite E; [exact Pa|].
    repeat constructor; apply Review_schema_range; assumption.
  - unfold Engine.scores_in_range. rewrite V. constructor.
Qed.




Lemma step_currentState p e :
  App.currentState (App.cells (App.step p e)) = App.currentState (App.cells p)
  \/ App.currentState (App.cells (App.step p e)) = None
  \/ (exists i d,
        e = App.settles i (Http.Resolved d)
        /\ App.currentState (App.cells (App.step p e)) = App.polled_state d)
  \/ (exists g,
        e = App.does (App.setCurrentState g)
        /\ App.currentState (App.cells (App.step p e)) = g).
Proof.
  destruct e as [a| | | |]; simpl.
  - destruct a; simpl; try (left; reflexivity).
    right; right; right. eexists; split; reflexivity.
  - left. unfold App.fire.
    destruct (nth_error _ _) as [t|]; [destruct (App.scheduled t)|];
      reflexivity.
  - unfold App.settle. destruct (existsb _ _); [|left; reflexivity].
    destruct reply as [d|err].
    + right; right; left. exists i, d. split; [reflexivity|].
      destruct (App.includes _ _); [rewrite stop_cells|]; reflexivity.
    + left. simpl. destruct (nth_error _ _) as [t|]; [|reflexivity].
      destruct (Nat.ltb _ _); [rewrite stop_cells|]; reflexivity.
  - right; left. reflexivity.
  - left. unfold App.cleanup. destruct (App.pollIntervalRef p); reflexivity.
Qed.

(** C7: a Review has exactly the members agent, notes, score and
    reasoning; in every state the engine reaches each review's score is
    an integer of 0..10; a transition leaves [reviews] as it is or
    replaces it by the batch of two the ReviewerPool validated; and the
    client only replaces the state it shows as a whole, by the one it
    polled or loaded or by none. *)
Theorem review_shape_and_immutability :
  map (fun m => (Types.member_name m, Types.member_optional m,
                 Types.member_type m))
      Types.Review_interface
  = [ ("agent"%string, false, Types.TString);
      ("notes"%string, false, Types.TString);
      ("score"%string, false, Types.TNumber);
      ("reasoning"%string, false, Types.TString) ]
  /\ (forall point t,
        Engine.reachable point t ->
        Engine.scores_in_range (Engine.state t))
  /\ (forall point t e t',
        Engine.step point t e = Some t' ->
        Engine.reviews (Engine.state t') = Engine.reviews (Engine.state t)
        \/ (exists rs rc,
              e = Engine.reviews_arrive (Some rs) (Some rc)
              /\ Engine.reviews (Engine.state t') = [rs; rc]))
  /\ (forall p e,
        App.currentState (App.cells (App.step p e))
        = App.currentState (App.cells p)
        \/ App.currentState (App.cells (App.step p e)) = None
        \/ (exists i d,
              e = App.settles i (Http.Resolved d)
              /\ App.currentState (App.cells (App.step p e))
                 = App.polled_state d)
        \/ (exists g,
              e = App.does (App.setCurrentState g)
              /\ App.currentState (App.cells (App.step p e)) = g)).
Proof.
  split; [reflexivity|]. split; [exact reachable_scores|].
  split; [|exact step_currentState].
  intros point t e t' H.
  destruct (step_reviews point t e t' H) as [E|[rs [rc [E [_ [_ R]]]]]];
    [left; exact E | right; exists rs, rc; auto].
Qed.

(** On the thread one complete cycle leaves. *)
Lemma review_shape_and_immutability_witness :
  exists t0 t,
    Engine.invoke (js "Design a panic attack grounding exercise") = Some t0
    /\ Engine.run Engine.with_drafter Samples.one_cycle t0 = Some t
    /\ Engine.reviews (Engine.state t)
       = [Samples.safety_review; Samples.clinical_review]
    /\ Engine.scores_in_range (Engine.state t).
Proof.
  do 2 eexists. split; [reflexivity|]. split; [reflexivity|].
  split; [reflexivity|].
  apply (proj1 (proj2 review_shape_and_immutability) Engine.with_drafter).
  exists (js "Design a panic attack grounding exercise").
  eexists. exists Samples.one_cycle. split; reflexivity.
Defined.


(* ================================================================== *)
(** * Further properties of the client *)
(* ================================================================== *)

(** ** What one event does to the timers and to the requests *)

Lemma stop_timers p :
  App.timers (App.stop p) = App.timers p
  \/ exists k, App.timers (App.stop p) = App.clearInterval k (App.timers p).
Proof.
  unfold App.stop. destruct (App.pollIntervalRef p) as [k|]; simpl; eauto.
Qed.

Lemma settle_requests i reply p :
  App.requests (App.settle i reply p) = App.requests p.
Proof.
  unfold App.settle. destruct (existsb _ _); [|reflexivity].
  destruct reply as [d|err].
  - destruct (App.includes _ _); [rewrite stop_requests|]; reflexivity.
  - simpl. destruct (nth_error _ _) as [t|]; [|reflexivity].
    destruct (Nat.ltb _ _); [rewrite stop_requests|]; reflexivity.
Qed.

Lemma settle_timers i reply p :
  App.timers (App.settle i reply p) = App.timers p
  \/ exists k,
       App.timers (App.settle i reply p) = App.clearInterval k (App.timers p).
Proof.
  unfold App.settle. destruct (existsb _ _); [|auto].
  destruct reply as [d|err].
  - destruct (App.includes _ _); [|auto].
    match goal with |- context [App.stop ?q] => apply (stop_timers q) end.
  - simpl. destruct (nth_error _ _) as [t|]; [|auto].
    destruct (Nat.ltb _ _); [|auto].
    match goal with |- context [App.stop ?q] => apply (stop_timers q) end.
Qed.

(** Apart from a call of [startPolling], an event either sends nothing
    and at most clears an interval, or it is a scheduled interval that
    fires and sends the request for its thread. *)
Lemma step_effect p e :
  App.is_startPolling e = false ->
  (App.requests (App.step p e) = App.requests p
   /\ (App.timers (App.step p e) = App.timers p
       \/ exists k,
            App.timers (App.step p e) = App.clearInterval k (App.timers p)))
  \/ (exists k tm,
        nth_error (App.timers p) k = Some tm
        /\ App.scheduled tm = true
        /\ App.requests (App.step p e) = App.tid tm :: App.requests p
        /\ App.timers (App.step p e)
           = App.update k
               (fun t => {| App.tid := App.tid t;
                            App.pollCount := S (App.pollCount t);
                            App.scheduled := App.scheduled t |})
               (App.timers p)).
Proof.
  intros NS. destruct e as [a|k|i reply| |]; simpl.
  - left. destruct a; simpl in *; try discriminate; auto.
  - unfold App.fire. destruct (nth_error (App.timers p) k) as [tm|] eqn:E;
      [|left; auto].
    destruct (App.scheduled tm) eqn:S; [|left; auto].
    right. exists k, tm. simpl. auto.
  - left. split; [apply settle_requests | apply settle_timers].
  - left. unfold App.handleClear. simpl. split; [apply stop_requests|].
    apply stop_timers.
  - left. unfold App.cleanup.
    destruct (App.pollIntervalRef p) as [k|]; simpl; eauto.
Qed.

Lemma polls_clear t k l :
  View.polls t l -> View.polls t (App.clearInterval k l).
Proof.
  intros P i tm Hi S. unfold App.clearInterval in Hi.
  rewrite nth_error_update in Hi. destruct (Nat.eqb k i).
  - destruct (nth_error l i); simpl in Hi; [|discriminate].
    inversion Hi; subst. simpl in S. discriminate.
  - eapply P; eassumption.
Qed.

Lemma polls_bump t k l :
  View.polls t l ->
  View.polls t
    (App.update k
       (fun t => {| App.tid := App.tid t;
                    App.pollCount := S (App.pollCount t);
                    App.scheduled := App.scheduled t |}) l).
Proof.
  intros P i tm Hi S. rewrite nth_error_update in Hi. destruct (Nat.eqb k i).
  - destruct (nth_error l i) as [u|] eqn:E; simpl in Hi; [|discriminate].
    inversion Hi; subst. simpl in *. eapply P; eassumption.
  - eapply P; eassumption.
Qed.

Lemma polls_run t later :
  forallb (fun e => negb (App.is_startPolling e)) later = true ->
  forall p,
    View.polls t (App.timers p) ->
    View.polls t (App.timers (App.run later p))
    /\ exists n,
         App.requests (App.run later p) = repeat t n ++ App.requests p.
Proof.
  induction later as [|e later IH]; intros NS p P; simpl.
  - split; [exact P | exists 0; reflexivity].
  - simpl in NS. apply andb_true_iff in NS. destruct NS as [Ne NS].
    apply negb_true_iff in Ne.
    destruct (step_effect p e Ne) as [[R T]|[k [tm [Hk [Sc [R T]]]]]].
    + assert (P' : View.polls t (App.timers (App.step p e))).
      { destruct T as [T|[k T]]; rewrite T; [exact P | apply polls_clear, P]. }
      destruct (IH NS _ P') as [Q [n E]]. split; [exact Q|].
      exists n. rewrite E, R. reflexivity.
    + assert (P' : View.polls t (App.timers (App.step p e)))
        by (rewrite T; apply polls_bump, P).
      destruct (IH NS _ P') as [Q [n E]]. split; [exact Q|].
      exists (S n). rewrite E, R, (P k tm Hk Sc).
      change (repeat t (S n)) with (t :: repeat t n).
      rewrite repeat_cons, <- app_assoc. reflexivity.
Qed.

Lemma startPolling_polls t p :
  App.sound p -> View.polls t (App.timers (App.do_startPolling t p)).
Proof.
  intros S i tm Hi Sch. pose proof (cleared_quiet p S) as Q.
  unfold App.do_startPolling in Hi. simpl in Hi.
  set (cleared := match App.pollIntervalRef p with
                  | Some i => App.clearInterval i (App.timers p)
                  | None => App.timers p
                  end) in *.
  destruct (Nat.lt_ge_cases i (List.length cleared)) as [Lt|Ge].
  - rewrite nth_error_app1 in Hi by exact Lt.
    rewrite Forall_forall in Q. apply nth_error_In in Hi.
    rewrite (Q tm Hi) in Sch. discriminate.
  - rewrite nth_error_app2 in Hi by exact Ge.
    destruct (i - List.length cleared) as [|k]; simpl in Hi.
    + inversion Hi; subst. reflexivity.
    + destruct k; discriminate.
Qed.

(** After [startPolling(t)], and until it is called again, every state
    request a polling callback sends is for thread [t]: an interval set
    for another thread before is cleared and never fires again.  (The
    one request [loadTask] sends by itself is no poll and is not among
    [requests].) *)
Theorem polls_latest_thread_only evs t later :
  forallb (fun e => negb (App.is_startPolling e)) later = true ->
  exists n,
    App.requests
      (App.run later (App.do_startPolling t (App.run evs App.initial)))
    = repeat t n ++ App.requests (App.run evs App.initial).
Proof.
  intros NS.
  destruct (polls_run t later NS
              (App.do_startPolling t (App.run evs App.initial))) as [_ H].
  - apply startPolling_polls, run_sound, initial_sound.
  - exact H.
Qed.

(** Thread a is being polled when [startPolling] is called for thread
    b; whatever timers and replies follow, only b is requested. *)
Lemma polls_latest_thread_only_witness :
  App.requests (App.run Scenarios.two_threads App.initial) = [js "thread_a"]
  /\ exists n,
       App.requests
         (App.run Scenarios.stale_events
            (App.do_startPolling (js "thread_b")
               (App.run Scenarios.two_threads App.initial)))
       = repeat (js "thread_b") n
         ++ App.requests (App.run Scenarios.two_threads App.initial).
Proof.
  split; [reflexivity|].
  apply (polls_latest_thread_only Scenarios.two_threads (js "thread_b")
           Scenarios.stale_events).
  reflexivity.
Defined.

(** ** Polls that fail, replies that come late, the unmount *)

Lemma awaited i p :
  In i (App.awaiting p) -> existsb (Nat.eqb i) (App.awaiting p) = true.
Proof.
  intros A. apply existsb_exists. exists i. split; [exact A | apply Nat.eqb_refl].
Qed.

(** A poll that fails is ignored as long as its interval has fired at
    most 10 times: cells, ref and timers stay as they are.  Once the
    interval has fired more than 10 times, one failed poll ends the
    polling, with status error and the message of the source, however
    many polls succeeded before. *)
Theorem failed_poll_threshold evs i tm err :
  In i (App.awaiting (App.run evs App.initial)) ->
  nth_error (App.timers (App.run evs App.initial)) i = Some tm ->
  (App.pollCount tm <= 10 ->
   App.settle i (Http.Rejected err) (App.run evs App.initial)
   = App.answered i (App.run evs App.initial))
  /\ (10 < App.pollCount tm ->
      App.status
        (App.cells (App.settle i (Http.Rejected err) (App.run evs App.initial)))
      = js "error"
      /\ App.error
           (App.cells
              (App.settle i (Http.Rejected err) (App.run evs App.initial)))
         = Some (js "Polling failed after multiple attempts")
      /\ App.pollIntervalRef
           (App.settle i (Http.Rejected err) (App.run evs App.initial))
         = None
      /\ App.quiet
           (App.settle i (Http.Rejected err) (App.run evs App.initial))).
Proof.
  intros A T. set (p := App.run evs App.initial) in *.
  assert (S : App.sound p) by (apply run_sound, initial_sound).
  unfold App.settle. rewrite (awaited i p A). simpl. rewrite T.
  split; intros C.
  - apply Nat.ltb_ge in C. rewrite C. reflexivity.
  - apply Nat.ltb_lt in C. rewrite C.
    match goal with |- context [App.stop ?x] => set (q := x) end.
    assert (Sq : App.sound q) by exact S.
    destruct (stop_quiet q Sq) as [Q R].
    rewrite stop_cells. auto.
Qed.

(** Ten polls of a thread were answered with running; the eleventh
    fails. *)
Lemma failed_poll_threshold_witness :
  App.requests (App.run Scenarios.eleven_polls App.initial)
    = repeat (js "thread_c") 11
  /\ App.status
       (App.cells
          (App.settle 0 (Http.Rejected Scenarios.network_error)
             (App.run Scenarios.eleven_polls App.initial)))
     = js "error"
  /\ App.quiet
       (App.settle 0 (Http.Rejected Scenarios.network_error)
          (App.run Scenarios.eleven_polls App.initial)).
Proof.
  split; [reflexivity|].
  destruct (failed_poll_threshold Scenarios.eleven_polls 0
              {| App.tid := js "thread_c"; App.pollCount := 11;
                 App.scheduled := true |}
              Scenarios.network_error) as [_ H].
  - left. reflexivity.
  - reflexivity.
  - destruct (H ltac:(simpl; lia)) as [St [_ [_ Q]]]. split; assumption.
Defined.

(** A reply that was awaited before [startPolling(t)] was called, and
    that reports a final status, is still applied afterwards: its state
    is shown and the interval just set for [t] is cleared, so that [t]
    is not requested at all until [startPolling] is called again. *)
Theorem late_reply_stops_new_polling evs i d t later :
  In i (App.awaiting (App.run evs App.initial)) ->
  App.includes App.final_statuses (App.or_empty (App.polled_status d)) = true ->
  forallb (fun e => negb (App.is_startPolling e)) later = true ->
  App.currentState
    (App.cells
       (App.settle i (Http.Resolved d)
          (App.do_startPolling t (App.run evs App.initial))))
  = App.polled_state d
  /\ App.quiet
       (App.settle i (Http.Resolved d)
          (App.do_startPolling t (App.run evs App.initial)))
  /\ App.requests
       (App.run later
          (App.settle i (Http.Resolved d)
             (App.do_startPolling t (App.run evs App.initial))))
     = App.requests (App.run evs App.initial).
Proof.
  intros A F NS. set (p := App.run evs App.initial) in *.
  assert (S : App.sound (App.do_startPolling t p))
    by (apply startPolling_sound, run_sound, initial_sound).
  unfold App.settle.
  change (App.awaiting (App.do_startPolling t p)) with (App.awaiting p).
  rewrite (awaited i p A), F.
  match goal with |- context [App.stop ?x] => set (q := x) end.
  assert (Sq : App.sound q) by exact S.
  destruct (stop_quiet q Sq) as [Q R].
  rewrite stop_cells. split; [reflexivity|]. split; [exact Q|].
  destruct (run_quiet later (App.stop q) NS Q) as [_ RR].
  rewrite RR, stop_requests. reflexivity.
Qed.

(** The poll of thread a is answered with halted after thread b has
    been given its interval. *)
Lemma late_reply_stops_new_polling_witness :
  App.quiet
    (App.settle 0 (Http.Resolved Samples.halted_reply)
       (App.do_startPolling (js "thread_b")
          (App.run Scenarios.two_threads App.initial)))
  /\ App.requests
       (App.run Scenarios.stale_events
          (App.settle 0 (Http.Resolved Samples.halted_reply)
             (App.do_startPolling (js "thread_b")
                (App.run Scenarios.two_threads App.initial))))
     = [js "thread_a"].
Proof.
  destruct (late_reply_stops_new_polling Scenarios.two_threads 0
              Samples.halted_reply (js "thread_b") Scenarios.stale_events)
    as [_ [Q R]].
  - left. reflexivity.
  - reflexivity.
  - reflexivity.
  - split; [exact Q | exact R].
Defined.

(** On unmount the interval is cleared: nothing is scheduled, and no
    timer or reply that comes afterwards sends a request, as long as
    [startPolling] is not called again (the reply of an invoke or of a
    [loadTask] that lands after the unmount would do so). *)
Theorem unmount_stops_polling evs later :
  forallb (fun e => negb (App.is_startPolling e)) later = true ->
  App.quiet (App.cleanup (App.run evs App.initial))
  /\ App.requests (App.run later (App.cleanup (App.run evs App.initial)))
     = App.requests (App.run evs App.initial).
Proof.
  intros NS. set (p := App.run evs App.initial).
  assert (S : App.sound p) by (apply run_sound, initial_sound).
  assert (Q : App.quiet (App.cleanup p)).
  { pose proof (cleared_quiet p S) as C. unfold App.cleanup, App.quiet.
    destruct (App.pollIntervalRef p); simpl; exact C. }
  split; [exact Q|].
  destruct (run_quiet later (App.cleanup p) NS Q) as [_ R]. rewrite R.
  unfold App.cleanup. destruct (App.pollIntervalRef p); reflexivity.
Qed.

(** The component unmounts while thread a is polled. *)
Lemma unmount_stops_polling_witness :
  App.requests
    (App.run Scenarios.stale_events
       (App.cleanup (App.run Scenarios.two_threads App.initial)))
  = [js "thread_a"].
Proof.
  apply (unmount_stops_polling Scenarios.two_threads Scenarios.stale_events).
  reflexivity.
Defined.

(** ** The review panel and the page *)

(** With nothing scheduled, the ref empty and no reply awaited, timers,
    replies and the unmount change nothing. *)
Lemma idle_fixed later :
  forallb View.spontaneous later = true ->
  forall p,
    App.quiet p -> App.pollIntervalRef p = None -> App.awaiting p = [] ->
    App.run later p = p.
Proof.
  induction later as [|e later IH]; intros Sp p Q R A; simpl; [reflexivity|].
  simpl in Sp. apply andb_true_iff in Sp. destruct Sp as [Se Sp].
  assert (E : App.step p e = p).
  { destruct e as [a|k|i reply| |]; simpl in *; try discriminate.
    - apply fire_quiet, Q.
    - unfold App.settle. rewrite A. reflexivity.
    - unfold App.cleanup. rewrite R. reflexivity. }
  rewrite E. apply IH; assumption.
Qed.

(** An approval in the review panel, reached as the poll that reported
    the halt stopped the polling, sets the status to resuming and starts
    no polling: whether the resume request succeeds or fails, and
    whatever timers and replies follow, the component stays as it was
    at the halt, with status resuming. *)
Theorem approval_leaves_resuming p props c reply later :
  App.quiet p -> App.pollIntervalRef p = None -> App.awaiting p = [] ->
  forallb View.spontaneous later = true ->
  App.run later
    (App.run
       (flat_map View.review_callback
          (Flow.all (HumanReview.handleApprove props c) reply))
       p)
  = App.set_cells (App.with_status (js "resuming")) p.
Proof.
  intros Q R A Sp.
  assert (E : flat_map View.review_callback
                (Flow.all (HumanReview.handleApprove props c) reply)
              = [App.does (App.setStatus (js "resuming"))]).
  { unfold HumanReview.handleApprove, Flow.all. simpl.
    destruct reply; reflexivity. }
  rewrite E. simpl. apply idle_fixed; assumption.
Qed.

(** At the halt of a polled thread, the draft edited and approved. *)
Lemma approval_leaves_resuming_witness :
  View.review (App.cells Scenarios.at_halt) = Some Samples.props
  /\ App.status
       (App.cells
          (App.run Scenarios.stale_events
             (App.run
                (flat_map View.review_callback
                   (Flow.all
                      (HumanReview.handleApprove Samples.props Samples.edited)
                      (Http.Resolved tt)))
                Scenarios.at_halt)))
     = js "resuming"
  /\ App.requests
       (App.run Scenarios.stale_events
          (App.run
             (flat_map View.review_callback
                (Flow.all
                   (HumanReview.handleApprove Samples.props Samples.edited)
                   (Http.Resolved tt)))
             Scenarios.at_halt))
     = [js "thread_1a2b3c4d"].
Proof.
  split; [reflexivity|].
  rewrite (approval_leaves_resuming Scenarios.at_halt Samples.props
             Samples.edited (Http.Resolved tt) Scenarios.stale_events).
  - split; reflexivity.
  - repeat constructor.
  - reflexivity.
  - reflexivity.
  - reflexivity.
Defined.

(** [handleClear], from wherever the component is: the status is idle,
    thread, state and error are gone, the ref is empty, nothing is
    scheduled, no request is sent by it, neither the review panel nor
    the final result is rendered, and a second Clear changes nothing. *)
Theorem handleClear_resets evs :
  App.status (App.cells (App.handleClear (App.run evs App.initial))) = js "idle"
  /\ App.threadId (App.cells (App.handleClear (App.run evs App.initial))) = None
  /\ App.currentState (App.cells (App.handleClear (App.run evs App.initial)))
     = None
  /\ App.error (App.cells (App.handleClear (App.run evs App.initial))) = None
  /\ App.pollIntervalRef (App.handleClear (App.run evs App.initial)) = None
  /\ App.quiet (App.handleClear (App.run evs App.initial))
  /\ App.requests (App.handleClear (App.run evs App.initial))
     = App.requests (App.run evs App.initial)
  /\ View.review (App.cells (App.handleClear (App.run evs App.initial))) = None
  /\ View.final (App.cells (App.handleClear (App.run evs App.initial))) = None
  /\ App.handleClear (App.handleClear (App.run evs App.initial))
     = App.handleClear (App.run evs App.initial).
Proof.
  set (p := App.run evs App.initial).
  assert (S : App.sound p) by (apply run_sound, initial_sound).
  destruct (stop_quiet p S) as [Q R].
  unfold App.handleClear. simpl. rewrite stop_requests.
  repeat split; auto.
  - unfold View.review. simpl.
    destruct (View.on_generator _ && _); reflexivity.
  - unfold View.final. simpl.
    destruct (View.on_generator _ && _); reflexivity.
  - unfold App.stop at 1. simpl. rewrite R. reflexivity.
Qed.

Lemma step_keeps_no_thread p e :
  View.sets_threadId e = false ->
  App.threadId (App.cells p) = None ->
  App.threadId (App.cells (App.step p e)) = None.
Proof.
  intros NT T. destruct e as [a|k|i reply| |]; simpl.
  - destruct a as [| | | |[t|]| | |]; simpl in *; try discriminate; auto.
  - unfold App.fire. destruct (nth_error _ _) as [tm|]; [|exact T].
    destruct (App.scheduled tm); exact T.
  - unfold App.settle. destruct (existsb _ _); [|exact T].
    destruct reply as [d|err].
    + destruct (App.includes _ _); [rewrite stop_cells|]; exact T.
    + simpl. destruct (nth_error _ _) as [tm|]; [|exact T].
      destruct (Nat.ltb _ _); [rewrite stop_cells|]; exact T.
  - reflexivity.
  - unfold App.cleanup. destruct (App.pollIntervalRef p); exact T.
Qed.

(** After Clear the review panel is not rendered again before a handler
    sets a thread id: neither a reply that was still awaited, nor a
    timer, nor any other action brings it back. *)
Theorem no_review_after_clear p later :
  forallb (fun e => negb (View.sets_threadId e)) later = true ->
  App.threadId (App.cells (App.run later (App.handleClear p))) = None
  /\ View.review (App.cells (App.run later (App.handleClear p))) = None.
Proof.
  intros NT.
  assert (T : App.threadId (App.cells (App.run later (App.handleClear p)))
              = None).
  { assert (T0 : App.threadId (App.cells (App.handleClear p)) = None)
      by reflexivity.
    revert NT T0. generalize (App.handleClear p).
    induction later as [|e later IH]; intros q NT T0; simpl; [exact T0|].
    simpl in NT. apply andb_true_iff in NT. destruct NT as [Ne NT].
    apply negb_true_iff in Ne.
    apply IH; [exact NT | apply step_keeps_no_thread; assumption]. }
  split; [exact T|].
  unfold View.review. rewrite T.
  destruct (View.on_generator _ && _); [|reflexivity].
  destruct (App.currentState _); reflexivity.
Qed.

(** Clear is pressed while a poll is awaited, and its reply, halted with
    a state, comes in afterwards. *)
Lemma no_review_after_clear_witness :
  App.status
    (App.cells
       (App.run [App.settles 0 (Http.Resolved Samples.halted_reply)]
          (App.handleClear
             (App.run
                (App.does (App.setThreadId (Some (js "thread_a")))
                 :: Scenarios.two_threads)
                App.initial))))
  = js "halted"
  /\ View.review
       (App.cells
          (App.run [App.settles 0 (Http.Resolved Samples.halted_reply)]
             (App.handleClear
                (App.run
                   (App.does (App.setThreadId (Some (js "thread_a")))
                    :: Scenarios.two_threads)
                   App.initial))))
     = None.
Proof.
  split; [reflexivity|].
  apply (no_review_after_clear
           (App.run
              (App.does (App.setThreadId (Some (js "thread_a")))
               :: Scenarios.two_threads)
              App.initial)
           [App.settles 0 (Http.Resolved Samples.halted_reply)]).
  reflexivity.
Defined.

(** ** handleInvoke and the Generate button *)

Lemma handleInvoke_submits intent :
  blank intent = false ->
  App.handleInvoke intent
  = Http.Await
      [App.setStatus (js "processing"); App.setError None;
       App.setCurrentState None]
      {| App.invoke_url := API_URL ++ js "/invoke";
         App.invoke_intent := trim intent;
         App.invoke_timeout := 10000 |}
      (fun reply =>
         match reply with
         | Http.Resolved newThreadId =>
             match newThreadId with
             | Some tid =>
                 if truthy tid
                 then [App.setThreadId (Some tid); App.startPolling tid]
                 else App.invoke_failed
                        (App.thrown (js "No thread_id in response"))
             | None =>
                 App.invoke_failed (App.thrown (js "No thread_id in response"))
             end
         | Http.Rejected err => App.invoke_failed err
         end).
Proof.
  intros B. unfold App.handleInvoke.
  rewrite truthy_trim_blank, B. reflexivity.
Qed.

Lemma invoke_failed_shape err :
  exists m,
    m <> [] /\ App.invoke_failed err
               = [App.setError (Some m); App.setStatus (js "error")].
Proof.
  unfold App.invoke_failed. eexists. split; [|reflexivity].
  destruct (Http.code err) as [c|].
  - destruct (str_eqb c (js "ECONNREFUSED")); [discriminate|].
    destruct (str_eqb c (js "ERR_NETWORK")); [discriminate|].
    destruct (Http.response err); [discriminate|].
    destruct (Http.request err); [discriminate|].
    apply or_else_nonempty. discriminate.
  - destruct (Http.response err); [discriminate|].
    destruct (Http.request err); [discriminate|].
    apply or_else_nonempty. discriminate.
Qed.

(** Whenever the invoke request fails, or its reply has no thread id
    (none, or an empty one), [handleInvoke] ends with exactly two
    actions: an error message that is never empty, and the status
    error.  It sets no thread id and starts no polling. *)
Theorem handleInvoke_failure_reported intent reply :
  blank intent = false ->
  (forall tid, reply = Http.Resolved (Some tid) -> truthy tid = false) ->
  exists m,
    m <> []
    /\ Flow.after (App.handleInvoke intent) reply
       = [App.setError (Some m); App.setStatus (js "error")].
Proof.
  intros B NT. rewrite (handleInvoke_submits intent B). simpl.
  destruct reply as [[tid|]|err]; try apply invoke_failed_shape.
  rewrite (NT tid eq_refl). apply invoke_failed_shape.
Qed.

(** The backend answers 500 without a message. *)
Lemma handleInvoke_failure_reported_witness :
  Flow.after (App.handleInvoke (js "Create a sleep hygiene protocol"))
    (Http.Rejected
       {| Http.code := Some (js "ERR_BAD_RESPONSE");
          Http.response := Some {| Http.response_status := 500;
                                   Http.response_message := None |};
          Http.request := true;
          Http.message := js "Request failed with status code 500" |})
  = [App.setError (Some (js "Backend error 500: Unknown error"));
     App.setStatus (js "error")]
  /\ exists m,
       m <> []
       /\ Flow.after (App.handleInvoke (js "Create a sleep hygiene protocol"))
            (Http.Resolved (Some []))
          = [App.setError (Some m); App.setStatus (js "error")].
Proof.
  split; [reflexivity|].
  apply (handleInvoke_failure_reported (js "Create a sleep hygiene protocol")
           (Http.Resolved (Some []))).
  - reflexivity.
  - intros tid E. inversion E. reflexivity.
Defined.

Lemma run_app evs1 evs2 p :
  App.run (evs1 ++ evs2) p = App.run evs2 (App.run evs1 p).
Proof. unfold App.run. apply fold_left_app. Qed.

(** After an invoke that succeeds, with thread id [tid], whatever
    happened to the component while the request was awaited: the thread
    id is set and exactly one interval is scheduled, the one the ref
    holds, polling [tid] from a count of zero; setting it sends no
    request.  When nothing happened in between, the status is
    processing and error and state are cleared as well; a poll of an
    earlier thread that settles in between overwrites them. *)
Theorem handleInvoke_success_polls evs intent tid between :
  blank intent = false ->
  truthy tid = true ->
  exists q i,
    q = App.run
          (View.performs
             (Flow.after (App.handleInvoke intent) (Http.Resolved (Some tid))))
          (App.run between
             (App.run (View.performs (Flow.before (App.handleInvoke intent)))
                (App.run evs App.initial)))
    /\ App.threadId (App.cells q) = Some tid
    /\ App.pollIntervalRef q = Some i
    /\ nth_error (App.timers q) i
       = Some {| App.tid := tid; App.pollCount := 0; App.scheduled := true |}
    /\ (forall j tm,
          nth_error (App.timers q) j = Some tm -> App.scheduled tm = true ->
          j = i)
    /\ App.requests q
       = App.requests
           (App.run between
              (App.run (View.performs (Flow.before (App.handleInvoke intent)))
                 (App.run evs App.initial)))
    /\ (between = [] ->
        App.status (App.cells q) = js "processing"
        /\ App.error (App.cells q) = None
        /\ App.currentState (App.cells q) = None
        /\ App.requests q = App.requests (App.run evs App.initial)).
Proof.
  intros B T. rewrite (handleInvoke_submits intent B). unfold Flow.before.
  set (p1 := App.run (View.performs _) (App.run evs App.initial)).
  set (p2 := App.run between p1).
  assert (S2 : App.sound p2)
    by (unfold p2, p1; do 3 apply run_sound; apply initial_sound).
  unfold Flow.after. cbv beta iota. rewrite T. simpl.
  match goal with
  | |- context [App.do_startPolling tid ?x] => set (p3 := x)
  end.
  assert (S3 : App.sound p3) by exact S2.
  pose proof (startPolling_sound tid p3 S3) as S4.
  eexists. eexists. split; [reflexivity|].
  split; [reflexivity|]. split; [reflexivity|].
  split; [|split; [|split; [reflexivity|]]].
  - simpl. rewrite nth_error_app2 by apply Nat.le_refl.
    rewrite Nat.sub_diag. reflexivity.
  - intros j tm Hj Sc. specialize (S4 j tm Hj Sc). simpl in S4.
    inversion S4. reflexivity.
  - intros E. unfold p3, p2, p1. rewrite E. simpl. repeat split.
Qed.

(** A second thread is invoked while the first is polled, and a poll of
    the first settles with running before the reply of the invoke. *)
Lemma handleInvoke_success_polls_witness :
  exists q,
    q = App.run
          (View.performs
             (Flow.after (App.handleInvoke (js " Create a thought record "))
                (Http.Resolved (Some (js "thread_b")))))
          (App.run [App.settles 0 Scenarios.running_reply]
             (App.run
                (View.performs
                   (Flow.before
                      (App.handleInvoke (js " Create a thought record "))))
                (App.run Scenarios.two_threads App.initial)))
    /\ App.status (App.cells q) = js "running"
    /\ App.threadId (App.cells q) = Some (js "thread_b")
    /\ App.pollIntervalRef q = Some 1
    /\ map App.scheduled (App.timers q) = [false; true].
Proof.
  destruct (handleInvoke_success_polls Scenarios.two_threads
              (js " Create a thought record ") (js "thread_b")
              [App.settles 0 Scenarios.running_reply]
              eq_refl eq_refl) as [q [i [E _]]].
  exists q. split; [exact E|]. rewrite E. repeat split.
Defined.

(** The Generate button and its handler agree: when the button can be
    clicked, [handleInvoke] sends the request, with the trimmed intent,
    so its alert for a missing intent is never reached through the
    button; an empty or white-space-only intent, or a status of
    processing or resuming, disables the button. *)
Theorem generate_button_guards_handleInvoke (c : App.Cells) :
  (forall h,
     View.press_generate c = Some h ->
     exists req,
       Http.issued h = Some req
       /\ App.invoke_intent req = trim (App.intent c)
       /\ trim (App.intent c) <> []
       /\ Flow.before h
          = [App.setStatus (js "processing"); App.setError None;
             App.setCurrentState None])
  /\ (blank (App.intent c) = true -> View.press_generate c = None)
  /\ (View.busy c = true -> View.press_generate c = None).
Proof.
  unfold View.press_generate, View.generate_disabled.
  rewrite truthy_trim_blank, negb_involutive.
  split; [|split].
  - intros h H.
    destruct (View.on_generator c); [|discriminate].
    destruct (View.busy c); [discriminate|].
    destruct (blank (App.intent c)) eqn:B; [discriminate|].
    simpl in H. inversion H; subst; clear H.
    rewrite (handleInvoke_submits _ B). eexists. repeat split.
    intros E. apply trim_empty_iff in E. congruence.
  - intros B. rewrite B, orb_true_r, andb_false_r. reflexivity.
  - intros B. rewrite B, andb_false_r. reflexivity.
Qed.

(** A quick example is clicked on the fresh page, then Generate. *)
Lemma generate_button_guards_handleInvoke_witness :
  exists h req,
    View.press_generate
      (View.handleExampleClick
         (js "Design a panic attack grounding exercise")
         (App.cells App.initial)) = Some h
    /\ Http.issued h = Some req
    /\ App.invoke_intent req = js "Design a panic attack grounding exercise".
Proof.
  eexists.
  destruct (proj1 (generate_button_guards_handleInvoke
                     (View.handleExampleClick
                        (js "Design a panic attack grounding exercise")
                        (App.cells App.initial)))
              _ eq_refl) as [req [I [E _]]].
  exists req. split; [reflexivity|]. split; [exact I|].
  rewrite E. reflexivity.
Defined.

(** ** loadTask *)

(** [loadTask] always makes the task's thread the current one, with the
    task's status, and sends no state request through the poller.  It
    starts polling that thread only when its own request succeeds and
    the task is running or halted; for any other task, and when the
    request fails (the error is then "Failed to load task" and the
    state shown is kept), the ref and the timers stay as they are, so
    an interval that polls another thread keeps running. *)
Theorem loadTask_polls_only_unfinished task reply p :
  let unfinished :=
    str_eqb (Types.status task) (js "running")
    || str_eqb (Types.status task) (js "halted") in
  let q := App.run (View.performs (Flow.all (App.loadTask task) reply)) p in
  Http.issued (App.loadTask task)
  = Some (API_URL ++ js "/state/" ++ Types.thread_id task)
  /\ App.threadId (App.cells q) = Some (Types.thread_id task)
  /\ App.status (App.cells q) = Types.status task
  /\ App.requests q = App.requests p
  /\ match reply with
     | Http.Resolved st =>
         App.currentState (App.cells q) = st
         /\ App.error (App.cells q) = App.error (App.cells p)
         /\ if unfinished
            then App.timers q
                 = App.timers (App.do_startPolling (Types.thread_id task) p)
                 /\ App.pollIntervalRef q
                    = App.pollIntervalRef
                        (App.do_startPolling (Types.thread_id task) p)
            else App.timers q = App.timers p
                 /\ App.pollIntervalRef q = App.pollIntervalRef p
     | Http.Rejected _ =>
         App.error (App.cells q) = Some (js "Failed to load task")
         /\ App.currentState (App.cells q) = App.currentState (App.cells p)
         /\ App.timers q = App.timers p
         /\ App.pollIntervalRef q = App.pollIntervalRef p
     end.
Proof.
  unfold App.loadTask, Flow.all, View.performs. simpl.
  destruct reply as [st|err]; simpl.
  - destruct (str_eqb (Types.status task) (js "running")
              || str_eqb (Types.status task) (js "halted"));
      simpl; repeat split.
  - repeat split.
Qed.

(** A completed task is loaded while thread a is polled: the interval
    of thread a stays scheduled. *)
Lemma loadTask_polls_only_unfinished_witness :
  map App.scheduled
    (App.timers
       (App.run
          (View.performs
             (Flow.all (App.loadTask Scenarios.completed_task)
                (Http.Resolved (Some Samples.halted_state))))
          (App.run Scenarios.two_threads App.initial)))
  = [true]
  /\ App.timers
       (App.run
          (View.performs
             (Flow.all (App.loadTask Scenarios.completed_task)
                (Http.Resolved (Some Samples.halted_state))))
          (App.run Scenarios.two_threads App.initial))
     = App.timers (App.run Scenarios.two_threads App.initial).
Proof.
  split; [reflexivity|].
  destruct (loadTask_polls_only_unfinished Scenarios.completed_task
              (Http.Resolved (Some Samples.halted_state))
              (App.run Scenarios.two_threads App.initial))
    as [_ [_ [_ [_ [_ [_ H]]]]]].
  exact (proj1 H).
Defined.

(** ** fetchTasks: what the list holds *)

Lemma sort_length getTime l :
  List.length (App.sort getTime l) = List.length l.
Proof. symmetry. apply Permutation_length, sort_perm. Qed.

Lemma to_task_intent entry : Types.intent (App.to_task entry) <> [].
Proof.
  destruct entry as [k raw]. simpl.
  destruct (App.raw_intent raw); [apply or_else_nonempty|]; discriminate.
Qed.

(** The list [fetchTasks] sets has one task per entry of the reply, no
    more and no fewer, under the entries' thread ids; each task has its
    entry's status and creation time, a missing iteration count reads 0,
    and no task has an empty intent: a missing or empty one reads
    "Unknown". *)
Theorem taskList_complete getTime reply l :
  App.taskList getTime reply = Some l ->
  exists d entries,
    reply = Http.Resolved d
    /\ App.success d = true
    /\ App.reply_tasks d = Some entries
    /\ List.length l = List.length entries
    /\ Permutation (map Types.thread_id l) (map fst entries)
    /\ Forall (fun t => Types.intent t <> []) l
    /\ Forall
         (fun t =>
            exists raw,
              In (Types.thread_id t, raw) entries
              /\ Types.status t = App.raw_status raw
              /\ Types.created_at t = App.raw_created_at raw
              /\ (App.raw_intent raw = None -> Types.intent t = js "Unknown")
              /\ (App.raw_iterations raw = None -> Types.iterations t = 0%Z)
              /\ (App.raw_intent raw = Some [] ->
                  Types.intent t = js "Unknown")
              /\ (forall i,
                    App.raw_intent raw = Some i -> i <> [] ->
                    Types.intent t = i)
              /\ (forall n,
                    App.raw_iterations raw = Some n -> Types.iterations t = n))
         l.
Proof.
  unfold App.taskList. destruct reply as [d|err]; [|discriminate].
  destruct (App.success d) eqn:Su; [|discriminate].
  destruct (App.reply_tasks d) as [entries|] eqn:E; [|discriminate].
  intros H; inversion H; subst; clear H.
  exists d, entries. repeat split; auto.
  - rewrite sort_length, length_map. reflexivity.
  - eapply perm_trans;
      [apply Permutation_map, Permutation_sym, sort_perm|].
    rewrite map_map.
    replace (map (fun x => Types.thread_id (App.to_task x)) entries)
      with (map fst entries); [apply Permutation_refl|].
    apply map_ext. intros [k raw]. reflexivity.
  - eapply Permutation_Forall; [apply sort_perm|].
    apply Forall_forall. intros t Ht. apply in_map_iff in Ht.
    destruct Ht as [entry [<- _]]. apply to_task_intent.
  - eapply Permutation_Forall; [apply sort_perm|].
    apply Forall_forall. intros t Ht. apply in_map_iff in Ht.
    destruct Ht as [[k raw] [<- I]]. exists raw. simpl.
    repeat split; auto; try (intros ->; reflexivity).
    + intros i -> Hi. destruct i; [congruence | reflexivity].
    + intros n ->. reflexivity.
Qed.

(** On the reply with three threads, one with an empty and one with no
    intent. *)
Lemma taskList_complete_witness :
  exists l,
    App.taskList Samples.getTime Samples.tasks_reply = Some l
    /\ List.length l = 3
    /\ Forall (fun t => Types.intent t <> []) l.
Proof.
  eexists. split; [reflexivity|].
  destruct (taskList_complete Samples.getTime Samples.tasks_reply _ eq_refl)
    as [d [entries [_ [_ [_ [_ [_ [I _]]]]]]]].
  split; [reflexivity | exact I].
Defined.




(** ** HumanReview.tsx: the editor, the history and the buttons *)

Lemma str_neqb_same s : str_neqb s s = false.
Proof.
  unfold str_neqb. apply negb_false_iff. apply str_eqb_eq. reflexivity.
Qed.

(** An approval right after the panel is mounted sends exactly approved,
    the default feedback and no [edited_draft].  After a click on a
    "Draft n" button the approval resubmits that version as
    [edited_draft], whatever was typed before, unless it is the very
    draft under review, which is sent as no edit at all. *)
Theorem approval_after_history_pick props :
  (exists req,
     Http.issued (HumanReview.handleApprove props (HumanReview.mount props))
       = Some req
     /\ Resume.body req
        = {| Resume.approved := true;
             Resume.feedback := js "Approved without additional feedback";
             Resume.edited_draft := None |})
  /\ (forall index d c,
        nth_error (ReviewPanel.history_buttons props) index = Some d ->
        exists req,
          Http.issued
            (HumanReview.handleApprove props (ReviewPanel.pick props index c))
            = Some req
          /\ Resume.edited_draft (Resume.body req)
             = (if str_eqb d (Types.draft (HumanReview.state props))
                then None else Some d)
          /\ Resume.feedback (Resume.body req)
             = or_else (HumanReview.feedback c)
                 (js "Approved without additional feedback"))
  /\ (List.length (Types.draft_history (HumanReview.state props)) <= 1 ->
      forall index c, ReviewPanel.pick props index c = c).
Proof.
  split; [|split].
  - eexists. split; [apply handleApprove_issued|]. simpl.
    rewrite str_neqb_same. reflexivity.
  - intros index d c H. eexists. split; [apply handleApprove_issued|].
    unfold ReviewPanel.pick. rewrite H. simpl. unfold str_neqb.
    destruct (str_eqb d _); split; reflexivity.
  - intros L index c. unfold ReviewPanel.pick, ReviewPanel.history_buttons.
    destruct (Nat.ltb_spec 1
                (List.length (Types.draft_history (HumanReview.state props))))
      as [Lt|_]; [lia|].
    destruct index; reflexivity.
Qed.

(** Two drafts, "A" then "B"; the reviewer types, then picks Draft 1,
    or Draft 2. *)
Lemma approval_after_history_pick_witness :
  (exists req,
     Http.issued
       (HumanReview.handleApprove Scenarios.two_drafts
          (ReviewPanel.pick Scenarios.two_drafts 0
             (ReviewPanel.setEditedDraft (js "C")
                (HumanReview.mount Scenarios.two_drafts))))
       = Some req
     /\ Resume.edited_draft (Resume.body req) = Some (js "A"))
  /\ (exists req,
        Http.issued
          (HumanReview.handleApprove Scenarios.two_drafts
             (ReviewPanel.pick Scenarios.two_drafts 1
                (ReviewPanel.setEditedDraft (js "C")
                   (HumanReview.mount Scenarios.two_drafts))))
          = Some req
        /\ Resume.edited_draft (Resume.body req) = None).
Proof.
  destruct (approval_after_history_pick Scenarios.two_drafts) as [_ [P _]].
  split.
  - destruct (P 0 (js "A")
                (ReviewPanel.setEditedDraft (js "C")
                   (HumanReview.mount Scenarios.two_drafts)) eq_refl)
      as [req [I [E _]]].
    exists req. split; [exact I | exact E].
  - destruct (P 1 (js "B")
                (ReviewPanel.setEditedDraft (js "C")
                   (HumanReview.mount Scenarios.two_drafts)) eq_refl)
      as [req [I [E _]]].
    exists req. split; [exact I | exact E].
Defined.



(** ** README: the router as documented *)

(** The documented router ends the workflow exactly for a state that is
    approved by the human and has no error: neither top scores nor the
    iteration limit ever lead to END by themselves. *)
Theorem supervisor_router_END_iff (s : Readme.GraphState) :
  Readme.supervisor_router s = Readme.END
  <-> Readme.error_present s = false /\ Readme.human_approved s = true.
Proof.
  unfold Readme.supervisor_router.
  destruct (Readme.error_present s); [split; [discriminate | intros [? _]; discriminate]|].
  destruct (Readme.human_approved s); [split; auto|].
  split; [|intros [_ ?]; discriminate].
  repeat match goal with
         | |- context [if ?b then _ else _] => destruct b
         end; discriminate.
Qed.

(** The documented router sends a state back to the drafter exactly
    when it has no error, is not approved, has fewer than 3 iterations
    and a safety score of at least 6, and its safety score is below 8
    or its clinical score below 7.  So the revision loop never runs
    past the third iteration and never continues on unsafe content. *)
Theorem supervisor_router_drafter_iff (s : Readme.GraphState) :
  Readme.supervisor_router s = Readme.drafter
  <-> Readme.error_present s = false
      /\ Readme.human_approved s = false
      /\ (Readme.iteration_count s < 3)%Z
      /\ (6 <= Types.safety (Readme.scores s))%Z
      /\ ((Types.safety (Readme.scores s) < 8)%Z
          \/ (Types.clinical (Readme.scores s) < 7)%Z).
Proof.
  unfold Readme.supervisor_router.
  destruct (Readme.error_present s);
    [split; [discriminate | intros [? _]; discriminate]|].
  destruct (Readme.human_approved s);
    [split; [discriminate | intros [_ [? _]]; discriminate]|].
  destruct (9 <=? Types.safety (Readme.scores s))%Z eqn:A;
    destruct (8 <=? Types.clinical (Readme.scores s))%Z eqn:B;
    destruct (3 <=? Readme.iteration_count s)%Z eqn:C;
    destruct (Types.safety (Readme.scores s) <? 6)%Z eqn:D;
    destruct (Types.safety (Readme.scores s) <? 8)%Z eqn:E;
    destruct (Types.clinical (Readme.scores s) <? 7)%Z eqn:F;
    simpl; split; try discriminate; try (intros _; repeat split; lia);
    intros [_ [_ H]]; lia.
Qed.

Example supervisor_router_sends_back :
  Readme.supervisor_router Scenarios.needs_revision = Readme.drafter.
Proof. reflexivity. Qed.
